(** * Ekalavya backend: the OTP-gated account state machine of [index.js]

    A shallow embedding of the six POST handlers of [src/index.js]
    ([/register], [/verify-otp], [/login], [/verify-login], [/logout],
    [/resend-otp]) over an explicit model of their three collaborators:
    the [users] table reached through the Supabase client, the mail
    transporter and the token signer.  Every handler is a function from
    the environment of one request and the world before it to the reply
    and the world after it. *)

From Stdlib Require Import ZArith List String Ascii Bool Lia SpecFloat.
Import ListNotations.
Open Scope string_scope.
Open Scope Z_scope.

(** ** Values read from a JSON request body *)

Module Js.

(** A body field as the handlers meet it: absent ([undefined]) or a
    string. *)
Definition field := option string.

(** The template literal [`${v}`]. *)
Definition template (v : field) : string :=
  match v with
  | None => "undefined"
  | Some s => s
  end.

(** Truthiness, as tested by [!v]. *)
Definition truthy (v : field) : bool :=
  match v with
  | None => false
  | Some s => negb (String.eqb s "")
  end.

End Js.

(** ** Numbers: IEEE 754 binary64, as specified by [SpecFloat] *)

Module Number.

Definition prec : Z := 53.
Definition emax : Z := 1024.

Definition double := spec_float.

Definition mul : double -> double -> double := SFmul prec emax.
Definition add : double -> double -> double := SFadd prec emax.

(** The double denoted by a positive integer literal. *)
Definition literal (p : positive) : double :=
  binary_normalize prec emax (Zpos p) 0 false.

(** What [Math.random()] may return: a double [r] with [0 <= r < 1]
    and positive sign. *)
Definition unit_interval (r : double) : bool :=
  valid_binary prec emax r &&
  match r with
  | S754_zero s => negb s
  | S754_finite s _ _ => negb s && SFltb r (literal 1)
  | _ => false
  end.

(** [Math.floor] on a finite double is an integer; [None] stands for
    NaN and the infinities, which it returns unchanged. *)
Definition floor (x : double) : option Z :=
  match x with
  | S754_zero _ => Some 0
  | S754_finite s m e => Some (Z.shiftl (cond_Zopp s (Zpos m)) e)
  | _ => None
  end.

Definition digit (d : Z) : ascii := ascii_of_nat (48 + Z.to_nat d).

Fixpoint digits (fuel : nat) (n : Z) (acc : string) : string :=
  match fuel with
  | O => acc
  | S fuel' =>
      let acc' := String (digit (n mod 10)) acc in
      if n / 10 =? 0 then acc' else digits fuel' (n / 10) acc'
  end.

(** Decimal numeral of an integer, as [Number.prototype.toString]
    prints an integral double below 1e21. *)
Definition decimal (n : Z) : string :=
  let body := digits (S (Z.to_nat (Z.log2 (Z.abs n)))) (Z.abs n) "" in
  if n <? 0 then String "-" body else body.

(** [Math.floor(x).toString()]. *)
Definition floor_toString (x : double) : string :=
  match floor x with
  | Some n => decimal n
  | None =>
      match x with
      | S754_infinity false => "Infinity"
      | S754_infinity true => "-Infinity"
      | _ => "NaN"
      end
  end.

(** Reading a decimal numeral back. *)
Definition digit_value (c : ascii) : option Z :=
  let n := Z.of_nat (nat_of_ascii c) in
  if (48 <=? n) && (n <=? 57) then Some (n - 48) else None.

Fixpoint parse_digits (s : string) (acc : Z) : option Z :=
  match s with
  | EmptyString => Some acc
  | String c s' =>
      match digit_value c with
      | Some d => parse_digits s' (10 * acc + d)
      | None => None
      end
  end.

Definition parse_decimal (s : string) : option Z :=
  match s with
  | EmptyString => None
  | _ => parse_digits s 0
  end.

End Number.

(** The expression [Math.floor(100000 + Math.random() * 900000).toString()]
    of lines 73, 120 and 228, as a function of the value drawn by
    [Math.random()]. *)
Definition fresh_otp (r : Number.double) : string :=
  Number.floor_toString
    (Number.add (Number.literal 100000) (Number.mul r (Number.literal 900000))).

(** ** The [users] table (lines 30-53) *)

Module Users.

(** An entry of [login_records]. *)
Record entry := { action : string; time : Z }.

(** One row.  A nullable TEXT column is [None] when NULL; the three
    flags are written [false] by default and only ever [true] by the
    handlers. *)
Record row := {
  id : string;
  name : option string;
  email : string;
  phone : option string;
  user_type : option string;
  council_id : option string;
  otp : option string;
  otp_verified : bool;
  email_verified : bool;
  approved_by_admin : bool;
  created_at : Z;
  last_login_at : option Z;
  login_records : list entry;
  dob : option string;
  address : option string;
  gender : option string;
  nationality : option string;
  aadhaar : option string;
  passport : option string;
  pan_card : option string
}.

Definition table := list row.

(** [update({ otp })] *)
Definition set_otp (v : string) (u : row) : row :=
  {| id := id u; name := name u; email := email u; phone := phone u;
     user_type := user_type u; council_id := council_id u;
     otp := Some v;
     otp_verified := otp_verified u; email_verified := email_verified u;
     approved_by_admin := approved_by_admin u; created_at := created_at u;
     last_login_at := last_login_at u; login_records := login_records u;
     dob := dob u; address := address u; gender := gender u;
     nationality := nationality u; aadhaar := aadhaar u;
     passport := passport u; pan_card := pan_card u |}.

(** [update({ otp_verified: true, email_verified: true })] *)
Definition set_verified (u : row) : row :=
  {| id := id u; name := name u; email := email u; phone := phone u;
     user_type := user_type u; council_id := council_id u;
     otp := otp u;
     otp_verified := true; email_verified := true;
     approved_by_admin := approved_by_admin u; created_at := created_at u;
     last_login_at := last_login_at u; login_records := login_records u;
     dob := dob u; address := address u; gender := gender u;
     nationality := nationality u; aadhaar := aadhaar u;
     passport := passport u; pan_card := pan_card u |}.

(** [update({ login_records: l })] *)
Definition set_login_records (l : list entry) (u : row) : row :=
  {| id := id u; name := name u; email := email u; phone := phone u;
     user_type := user_type u; council_id := council_id u;
     otp := otp u;
     otp_verified := otp_verified u; email_verified := email_verified u;
     approved_by_admin := approved_by_admin u; created_at := created_at u;
     last_login_at := last_login_at u; login_records := l;
     dob := dob u; address := address u; gender := gender u;
     nationality := nationality u; aadhaar := aadhaar u;
     passport := passport u; pan_card := pan_card u |}.

(** [update({ last_login_at: t, login_records: l })] *)
Definition set_login (t : Z) (l : list entry) (u : row) : row :=
  {| id := id u; name := name u; email := email u; phone := phone u;
     user_type := user_type u; council_id := council_id u;
     otp := otp u;
     otp_verified := otp_verified u; email_verified := email_verified u;
     approved_by_admin := approved_by_admin u; created_at := created_at u;
     last_login_at := Some t; login_records := l;
     dob := dob u; address := address u; gender := gender u;
     nationality := nationality u; aadhaar := aadhaar u;
     passport := passport u; pan_card := pan_card u |}.

(** The constraint [email TEXT UNIQUE]. *)
Definition unique_emails (t : table) : Prop := NoDup (map email t).

End Users.

(** ** The body of [POST /register] (line 72) *)

Module Register.

Record body := {
  name : Js.field;
  email : Js.field;
  phone : Js.field;
  council_id : Js.field;
  user_type : Js.field;
  dob : Js.field;
  address : Js.field;
  gender : Js.field;
  nationality : Js.field;
  aadhaar : Js.field;
  passport : Js.field;
  pan_card : Js.field
}.

End Register.

(** ** What one request draws from outside the handler *)

Record Env := {
  (** the value of [Math.random()] *)
  random : Number.double;
  (** the value of the k-th [new Date()] evaluated by the handler *)
  date : nat -> Z;
  (** whether the k-th call to the repository fails to be served *)
  unserved : nat -> bool;
  (** whether [transporter.sendMail] resolves *)
  delivers : bool;
  (** the table's defaults [gen_random_uuid()] and [now()] *)
  gen_random_uuid : string;
  now : Z;
  (** [process.env.JWT_SECRET] *)
  JWT_SECRET : string
}.

(** ** The repository: the Supabase query builder over [users] *)

Inductive PgError :=
| NotNullViolation (column : string)
| UniqueViolation (column : string)
| NotASingleRow
| Unserved.

Module Query.

(** The filter [.eq(column, value)]: the column is compared, as text,
    with the value as the client writes it into the query; a NULL
    column equals nothing. *)
Definition eq (column : option string) (value : Js.field) : bool :=
  match column with
  | Some s => String.eqb s (Js.template value)
  | None => false
  end.

End Query.

(** [.single()]: the row when exactly one was selected, an error
    otherwise. *)
Definition single (rows : list Users.row) : option Users.row * option PgError :=
  match rows with
  | [u] => (Some u, None)
  | _ => (None, Some NotASingleRow)
  end.

(** [supabase.from("users").select(..).<filters>.single()], the k-th
    repository call of the request. *)
Definition select_single (env : Env) (k : nat) (filters : Users.row -> bool)
    (t : Users.table) : option Users.row * option PgError :=
  if unserved env k then (None, Some Unserved)
  else single (filter filters t).

(** [supabase.from("users").update(..).<filters>]. *)
Definition update (env : Env) (k : nat) (change : Users.row -> Users.row)
    (filters : Users.row -> bool) (t : Users.table) : option PgError * Users.table :=
  if unserved env k then (Some Unserved, t)
  else (None, map (fun u => if filters u then change u else u) t).

(** The row that [insert] writes from the object of line 77.  A column
    that the object leaves undefined, or does not name, takes the
    default of the table: NULL, ['intern'] for [user_type], [false] for
    the flags, the empty list for [login_records]; [gen_random_uuid()]
    is taken to return an identifier that no row has yet. *)
Definition new_row (env : Env) (b : Register.body) (e otp : string) : Users.row :=
  {| Users.id := gen_random_uuid env;
     Users.name := Register.name b;
     Users.email := e;
     Users.phone := Register.phone b;
     Users.user_type :=
       match Register.user_type b with
       | Some s => Some s
       | None => Some "intern"
       end;
     Users.council_id := Register.council_id b;
     Users.otp := Some otp;
     Users.otp_verified := false;
     Users.email_verified := false;
     Users.approved_by_admin := false;
     Users.created_at := now env;
     Users.last_login_at := None;
     Users.login_records := [];
     Users.dob := Register.dob b;
     Users.address := Register.address b;
     Users.gender := Register.gender b;
     Users.nationality := Register.nationality b;
     Users.aadhaar := Register.aadhaar b;
     Users.passport := Register.passport b;
     Users.pan_card := Register.pan_card b |}.

(** [supabase.from("users").insert([..])] under [email TEXT UNIQUE NOT
    NULL]. *)
Definition insert (env : Env) (k : nat) (b : Register.body) (otp : string)
    (t : Users.table) : option PgError * Users.table :=
  if unserved env k then (Some Unserved, t)
  else
    match Register.email b with
    | None => (Some (NotNullViolation "email"), t)
    | Some e =>
        if existsb (fun u => String.eqb (Users.email u) e) t
        then (Some (UniqueViolation "email"), t)
        else (None, (t ++ [new_row env b e otp])%list)
    end.

(** ** The notifier: [sendEmail] (lines 61-68) *)

(** The five HTML templates, by the values spliced into them. *)
Inductive Html :=
| WelcomeOtp (name : Js.field) (otp : string)
| LoginOtp (name : option string) (otp : string)
| LoginSuccessful (name : option string) (at_time : Z)
| LogoutNotification (name : option string) (at_time : Z)
| ResendOtp (name : option string) (otp : string).

Record Mail := { to : Js.field; subject : string; html : Html }.

(** ** The world a handler runs in and what it answers *)

Record World := { users : Users.table; outbox : list Mail }.

(** [await sendEmail(to, subject, html)]: the mail joins the outbox, or
    the promise rejects ([None]). *)
Definition sendEmail (env : Env) (w : World) (to_ : Js.field)
    (subject_ : string) (html_ : Html) : option World :=
  if delivers env
  then Some {| users := users w;
               outbox := (outbox w ++ [{| to := to_; subject := subject_; html := html_ |}])%list |}
  else None.

(** ** The signer: [jwt.sign(payload, secret, { expiresIn })] *)

Record Payload := {
  payload_id : string;
  payload_email : string;
  payload_user_type : option string
}.

Record Jwt := { payload : Payload; secret : string; expiresIn : string }.

Definition jwt_sign (p : Payload) (key : string) (span : string) : Jwt :=
  {| payload := p; secret := key; expiresIn := span |}.



(** ** Replies *)

Inductive Value :=
| Str (s : string)
| Null
| Message (e : PgError)
| Token (t : Jwt).

(** A nullable column as it appears in a JSON reply. *)
Definition column (c : option string) : Value :=
  match c with
  | Some s => Str s
  | None => Null
  end.

(** [res.status(s).json({..})], or [Rejected] when the promise of the
    handler rejects before it has replied. *)
Inductive Reply :=
| Json (status : Z) (body : list (string * Value))
| Rejected.

Definition error (status : Z) (text : string) : Reply :=
  Json status [("error", Str text)].

Definition message (text : string) : Reply :=
  Json 200 [("message", Str text)].

(** ** The handlers *)

(** The filter [.eq("email", email)]. *)
Definition by_email (email : Js.field) (u : Users.row) : bool :=
  Query.eq (Some (Users.email u)) email.

(** The filters [.eq("email", email).eq("otp", otp)]. *)
Definition by_email_and_otp (email otp : Js.field) (u : Users.row) : bool :=
  Query.eq (Some (Users.email u)) email && Query.eq (Users.otp u) otp.

Definition with_users (w : World) (t : Users.table) : World :=
  {| users := t; outbox := outbox w |}.

(** [app.post("/register")], lines 71-99. *)
Definition register (env : Env) (w : World) (b : Register.body) : Reply * World :=
  let otp := fresh_otp (random env) in
  match insert env 0 b otp (users w) with
  | (Some err, _) => (Json 400 [("error", Message err)], w)
  | (None, t) =>
      let w1 := with_users w t in
      match sendEmail env w1 (Register.email b) "Verify Your Registration"
              (WelcomeOtp (Register.name b) otp) with
      | None => (Rejected, w1)
      | Some w2 => (message "Registered successfully. OTP sent to email.", w2)
      end
  end.

(** [app.post("/verify-otp")], lines 102-109. *)
Definition verify_otp (env : Env) (w : World) (email otp : Js.field) : Reply * World :=
  match select_single env 0 (by_email_and_otp email otp) (users w) with
  | (Some _, None) =>
      let '(_, t) := update env 1 Users.set_verified (by_email email) (users w) in
      (message "Email verified successfully.", with_users w t)
  | _ => (error 400 "Invalid OTP", w)
  end.

(** [app.post("/login")], lines 112-138. *)
Definition login (env : Env) (w : World) (email : Js.field) : Reply * World :=
  match select_single env 0 (by_email email) (users w) with
  | (Some user, None) =>
      if negb (Users.email_verified user) then (error 403 "Email not verified", w)
      else if negb (Users.approved_by_admin user) then (error 403 "Not approved by admin", w)
      else
        let otp := fresh_otp (random env) in
        let '(_, t) := update env 1 (Users.set_otp otp) (by_email email) (users w) in
        let w1 := with_users w t in
        match sendEmail env w1 email "Login OTP" (LoginOtp (Users.name user) otp) with
        | None => (Rejected, w1)
        | Some w2 => (message "OTP sent for login.", w2)
        end
  | _ => (error 400 "User not found", w)
  end.

(** [app.post("/verify-login")], lines 141-165. *)
Definition verify_login (env : Env) (w : World) (email otp : Js.field) : Reply * World :=
  match select_single env 0 (by_email_and_otp email otp) (users w) with
  | (Some user, None) =>
      let token :=
        jwt_sign {| payload_id := Users.id user;
                    payload_email := Users.email user;
                    payload_user_type := Users.user_type user |}
                 (JWT_SECRET env) "1h" in
      let '(_, t) :=
        update env 1
          (Users.set_login (date env 0)
             (Users.login_records user
                ++ [{| Users.action := "login"; Users.time := date env 1 |}])%list)
          (by_email email) (users w) in
      let w1 := with_users w t in
      match sendEmail env w1 email "Login Successful"
              (LoginSuccessful (Users.name user) (date env 2)) with
      | None => (Rejected, w1)
      | Some w2 =>
          (Json 200 [("id", Str (Users.id user));
                     ("name", column (Users.name user));
                     ("email", Str (Users.email user));
                     ("user_type", column (Users.user_type user));
                     ("token", Token token)], w2)
      end
  | _ => (error 400 "Invalid OTP", w)
  end.

(** [app.post("/logout")], lines 168-189. *)
Definition logout (env : Env) (w : World) (email : Js.field) : Reply * World :=
  match select_single env 0 (by_email email) (users w) with
  | (Some user, _) =>
      let '(_, t) :=
        update env 1
          (Users.set_login_records
             (Users.login_records user
                ++ [{| Users.action := "logout"; Users.time := date env 0 |}])%list)
          (by_email email) (users w) in
      let w1 := with_users w t in
      match sendEmail env w1 email "Logout Notification"
              (LogoutNotification (Users.name user) (date env 1)) with
      | None => (Rejected, w1)
      | Some w2 => (message "Logged out successfully.", w2)
      end
  | (None, _) => (error 400 "User not found", w)
  end.

(** [app.post("/resend-otp")], lines 209-256. *)
Definition resend_otp (env : Env) (w : World) (email : Js.field) : Reply * World :=
  if negb (Js.truthy email) then (error 400 "Email is required", w)
  else
    match select_single env 0 (by_email email) (users w) with
    | (Some user, None) =>
        if Users.otp_verified user then (error 400 "Email already verified", w)
        else
          let otp := fresh_otp (random env) in
          match update env 1 (Users.set_otp otp) (by_email email) (users w) with
          | (Some _, _) => (error 500 "Failed to update OTP", w)
          | (None, t) =>
              let w1 := with_users w t in
              match sendEmail env w1 email "Resend OTP - Email Verification"
                      (ResendOtp (Users.name user) otp) with
              | Some w2 => (message "OTP resent successfully", w2)
              | None => (error 500 "Failed to send OTP email", w1)
              end
          end
    | _ => (error 404 "User with this email not found", w)
    end.

(** ** The failure causes the replies name *)

Inductive Failure :=
| ValidationError
| DuplicateEmail
| NotFound
| InvalidOtp
| EmailNotVerified
| NotApproved
| AlreadyVerified
| RepositoryFailure
| DeliveryFailure.

(** The cause a reply states, read off the error texts of the handlers
    and, for [/register], off the repository error it forwards. *)
Definition failure_of_text (text : string) : option Failure :=
  if String.eqb text "Invalid OTP" then Some InvalidOtp
  else if String.eqb text "User not found" then Some NotFound
  else if String.eqb text "User with this email not found" then Some NotFound
  else if String.eqb text "Email not verified" then Some EmailNotVerified
  else if String.eqb text "Not approved by admin" then Some NotApproved
  else if String.eqb text "Email already verified" then Some AlreadyVerified
  else if String.eqb text "Email is required" then Some ValidationError
  else if String.eqb text "Failed to update OTP" then Some RepositoryFailure
  else if String.eqb text "Failed to send OTP email" then Some DeliveryFailure
  else None.

Definition failure_of (r : Reply) : option Failure :=
  match r with
  | Json _ [("error", Str text)] => failure_of_text text
  | Json _ [("error", Message (UniqueViolation _))] => Some DuplicateEmail
  | Json _ [("error", Message (NotNullViolation _))] => Some ValidationError
  | Json _ [("error", Message _)] => Some RepositoryFailure
  | _ => None
  end.

Definition succeeded (r : Reply) : bool :=
  match r with
  | Json 200 _ => true
  | _ => false
  end.

(** ** One more entry in [login_records] *)

(** [appends_one act email t t']: the table [t'] is the table [t] but
    for the row of [email], whose [login_records] are those it had in
    [t] followed by one entry of action [act]. *)
Definition appends_one (act : string) (email : Js.field)
    (t t' : Users.table) : Prop :=
  exists pre post u u' at_time,
    t = (pre ++ u :: post)%list /\
    t' = (pre ++ u' :: post)%list /\
    Users.email u = Js.template email /\
    Users.email u' = Users.email u /\
    Users.login_records u' =
      (Users.login_records u
         ++ [{| Users.action := act; Users.time := at_time |}])%list /\
    List.length (Users.login_records u') = S (List.length (Users.login_records u)).

(** ** What a handler issues *)

(** The OTP spliced into a mail, if any. *)
Definition otp_of (h : Html) : option string :=
  match h with
  | WelcomeOtp _ otp | LoginOtp _ otp | ResendOtp _ otp => Some otp
  | LoginSuccessful _ _ | LogoutNotification _ _ => None
  end.

(** [issues code w w']: whatever row or mail the world [w'] has and the
    world [w] had not holds [code] as its OTP. *)
Definition issues (code : string) (w w' : World) : Prop :=
  (forall u, In u (users w') ->
     In u (users w) \/ Users.otp u = Some code) /\
  (forall m, In m (outbox w') ->
     In m (outbox w) \/ otp_of (html m) = Some code).

(** ** Notions used to reason about rounding *)

Module Rounding.

(** The record [r] is what remains of the integer [M] once the bits
    below the weight [P] are shifted out: the quotient, the round bit
    and the sticky bit. *)
Definition represents (M P : Z) (r : shr_record) : Prop :=
  exists q rem,
    M = q * P + rem /\ 0 <= rem < P /\ 0 <= q /\
    shr_m r = q /\
    shr_r r = (P <=? 2 * rem) /\
    shr_s r = negb ((rem =? 0) || (2 * rem =? P)).

(** The last step of [binary_round_aux] for a positive sign. *)
Definition finish (q e : Z) : spec_float :=
  match q with
  | Z0 => S754_zero false
  | Zpos m =>
      if e <=? Number.emax - Number.prec
      then S754_finite false m e
      else S754_infinity false
  | Zneg _ => S754_nan
  end.

(** The mantissas of the literals 900000 and 100000. *)
Definition c900000 : positive := 7730941132800000.
Definition c100000 : positive := 6871947673600000.

End Rounding.

(** ** Sample requests, used to run the handlers on concrete inputs *)

Module Sample.

(** The double 0.5. *)
Definition half : Number.double := S754_finite false 4503599627370496 (-53).

(** The largest double below 1. *)
Definition below_one : Number.double := S754_finite false 9007199254740991 (-53).

(** A request served and delivered, in which [Math.random()] returns
    [r]. *)
Definition drawing (r : Number.double) : Env :=
  {| random := r;
     date := fun k => 1700000000000 + Z.of_nat k;
     unserved := fun _ => false;
     delivers := true;
     gen_random_uuid := "7f9c0c1e";
     now := 1699999999000;
     JWT_SECRET := "secret" |}.

Definition env : Env := drawing half.

(** The same request when the mail cannot be sent. *)
Definition env_undelivered : Env :=
  {| random := random env; date := date env; unserved := unserved env;
     delivers := false;
     gen_random_uuid := gen_random_uuid env; now := now env;
     JWT_SECRET := JWT_SECRET env |}.

Definition body (name_ email_ : Js.field) : Register.body :=
  {| Register.name := name_; Register.email := email_;
     Register.phone := None; Register.council_id := None;
     Register.user_type := None; Register.dob := None;
     Register.address := None; Register.gender := None;
     Register.nationality := None; Register.aadhaar := None;
     Register.passport := None; Register.pan_card := None |}.

Definition empty : World := {| users := []; outbox := [] |}.

(** An account as [/register] leaves it: unverified and unapproved,
    with the OTP 123456 outstanding. *)
Definition alice : Users.row :=
  new_row env (body (Some "Alice") (Some "a@x.com")) "a@x.com" "123456".

Definition registered : World := {| users := [alice]; outbox := [] |}.

(** The same account once verified by its OTP. *)
Definition verified : World :=
  {| users := [Users.set_verified alice]; outbox := [] |}.

(** A verified account whose email is the empty string. *)
Definition nameless : Users.row :=
  Users.set_verified (new_row env (body None (Some "")) "" "550000").

End Sample.

(** ** Listing the accounts: [GET /users] (lines 193-205) *)

(** [supabase.from("users").select("*")], the k-th repository call of
    the request. *)
Definition select_all (env : Env) (k : nat) (t : Users.table)
    : option Users.table * option PgError :=
  if unserved env k then (None, Some Unserved) else (Some t, None).

(** What [GET /users] answers: [res.json({ users: data })], or the
    error reply.  The query hands its failures back in [error] and does
    not throw, so the [catch] of lines 202-204 is never entered. *)
Inductive Listing :=
| Listed (data : option Users.table)
| Refused (r : Reply).

(** [app.get("/users")], lines 193-205. *)
Definition get_users (env : Env) (w : World) : Listing * World :=
  match select_all env 0 (users w) with
  | (_, Some err) => (Refused (Json 400 [("error", Message err)]), w)
  | (data, None) => (Listed data, w)
  end.

(** ** The routes *)

(** A request, by the route that [app.post] or [app.get] registers for
    it and the fields its handler reads from the body. *)
Inductive Request :=
| PostRegister (b : Register.body)
| PostVerifyOtp (email otp : Js.field)
| PostLogin (email : Js.field)
| PostVerifyLogin (email otp : Js.field)
| PostLogout (email : Js.field)
| PostResendOtp (email : Js.field)
| GetUsers.

(** The world once the request has been handled. *)
Definition after (env : Env) (w : World) (req : Request) : World :=
  match req with
  | PostRegister b => snd (register env w b)
  | PostVerifyOtp email otp => snd (verify_otp env w email otp)
  | PostLogin email => snd (login env w email)
  | PostVerifyLogin email otp => snd (verify_login env w email otp)
  | PostLogout email => snd (logout env w email)
  | PostResendOtp email => snd (resend_otp env w email)
  | GetUsers => snd (get_users env w)
  end.

(** What the handler answers, when it answers with a JSON object of
    its own ([None] stands for the listing of [GET /users]). *)
Definition answer (env : Env) (w : World) (req : Request) : option Reply :=
  match req with
  | PostRegister b => Some (fst (register env w b))
  | PostVerifyOtp email otp => Some (fst (verify_otp env w email otp))
  | PostLogin email => Some (fst (login env w email))
  | PostVerifyLogin email otp => Some (fst (verify_login env w email otp))
  | PostLogout email => Some (fst (logout env w email))
  | PostResendOtp email => Some (fst (resend_otp env w email))
  | GetUsers =>
      match fst (get_users env w) with
      | Refused r => Some r
      | Listed _ => None
      end
  end.


(** Requests handled one after the other, each in its own
    environment. *)
Fixpoint run (trace : list (Env * Request)) (w : World) : World :=
  match trace with
  | [] => w
  | (env, req) :: rest => run rest (after env w req)
  end.

(** The world when the table has just been created and no mail has
    been sent. *)
Definition initial : World := {| users := []; outbox := [] |}.

(** A reply that reports a client error: a status from 400 to 499. *)
Definition client_error (r : Reply) : bool :=
  match r with
  | Json status _ => (400 <=? status) && (status <? 500)
  | Rejected => false
  end.

(** ** How a row may change *)

(** [evolves u u']: the row [u'] is the row [u] later on.  Identity,
    profile and approval are those of [u], a verification flag that was
    set is still set, the two flags agree if they did, and the
    [login_records] of [u] are the first entries of those of [u']. *)
Definition evolves (u u' : Users.row) : Prop :=
  Users.id u' = Users.id u /\
  Users.email u' = Users.email u /\
  Users.created_at u' = Users.created_at u /\
  Users.name u' = Users.name u /\
  Users.phone u' = Users.phone u /\
  Users.user_type u' = Users.user_type u /\
  Users.council_id u' = Users.council_id u /\
  Users.dob u' = Users.dob u /\
  Users.address u' = Users.address u /\
  Users.gender u' = Users.gender u /\
  Users.nationality u' = Users.nationality u /\
  Users.aadhaar u' = Users.aadhaar u /\
  Users.passport u' = Users.passport u /\
  Users.pan_card u' = Users.pan_card u /\
  Users.approved_by_admin u' = Users.approved_by_admin u /\
  (Users.otp_verified u = true -> Users.otp_verified u' = true) /\
  (Users.email_verified u = true -> Users.email_verified u' = true) /\
  (Users.email_verified u = Users.otp_verified u ->
     Users.email_verified u' = Users.otp_verified u') /\
  exists more,
    Users.login_records u' = (Users.login_records u ++ more)%list.

(** A row as [/register] creates it. *)
Definition just_registered (u : Users.row) : Prop :=
  Users.otp_verified u = false /\
  Users.email_verified u = false /\
  Users.approved_by_admin u = false /\
  Users.last_login_at u = None /\
  Users.login_records u = [].

(** [grows t t']: the table [t'] holds, in their order, the rows of
    [t] later on, followed by rows just registered. *)
Definition grows (t t' : Users.table) : Prop :=
  exists kept added,
    t' = (kept ++ added)%list /\
    Forall2 evolves t kept /\
    Forall just_registered added.

(** The two verification flags agree on every row. *)
Definition flags_agree (t : Users.table) : Prop :=
  Forall (fun u => Users.email_verified u = Users.otp_verified u) t.

(** ** More sample data *)

Module Scenario.

(** An account verified and approved, with the OTP 123456 outstanding. *)
Definition carol : Users.row :=
  {| Users.id := "0b51d6aa";
     Users.name := Some "Carol";
     Users.email := "c@x.com";
     Users.phone := None;
     Users.user_type := Some "admin";
     Users.council_id := None;
     Users.otp := Some "123456";
     Users.otp_verified := true;
     Users.email_verified := true;
     Users.approved_by_admin := true;
     Users.created_at := 1699999990000;
     Users.last_login_at := None;
     Users.login_records := [];
     Users.dob := None;
     Users.address := None;
     Users.gender := None;
     Users.nationality := None;
     Users.aadhaar := None;
     Users.passport := None;
     Users.pan_card := None |}.

(** A table of two accounts. *)
Definition office : World :=
  {| users := [Sample.alice; carol]; outbox := [] |}.

(** A request whose lookup is served and whose update is not. *)
Definition update_unserved : Env :=
  {| random := random Sample.env; date := date Sample.env;
     unserved := fun k => Nat.eqb k 1;
     delivers := true;
     gen_random_uuid := gen_random_uuid Sample.env; now := now Sample.env;
     JWT_SECRET := JWT_SECRET Sample.env |}.

(** A request that the repository does not serve at all. *)
Definition outage : Env :=
  {| random := random Sample.env; date := date Sample.env;
     unserved := fun _ => true;
     delivers := true;
     gen_random_uuid := gen_random_uuid Sample.env; now := now Sample.env;
     JWT_SECRET := JWT_SECRET Sample.env |}.

(** A body for [/register] with a second identifier drawn. *)
Definition second : Env :=
  {| random := Sample.below_one; date := date Sample.env;
     unserved := unserved Sample.env;
     delivers := true;
     gen_random_uuid := "5c2e9d10"; now := 1700000100000;
     JWT_SECRET := JWT_SECRET Sample.env |}.

End Scenario.

(** * Properties *)

Open Scope list_scope.

(** ** Rounding in binary64 *)

Section Binary64.

Import Rounding.

Lemma pow2_pos (k : Z) : 0 <= k -> 0 < 2 ^ k.
Proof. intros. apply Z.pow_pos_nonneg; lia. Qed.

Lemma digits2_pos_bounds (p : positive) :
  2 ^ Zpos (digits2_pos p) <= 2 * Zpos p < 2 * 2 ^ Zpos (digits2_pos p).
Proof.
  induction p as [p IH|p IH|]; simpl digits2_pos.
  - rewrite Pos2Z.inj_succ, Z.pow_succ_r by lia. lia.
  - rewrite Pos2Z.inj_succ, Z.pow_succ_r by lia. lia.
  - change (2 ^ 1) with 2. lia.
Qed.

(** digits ≤ k when below 2^k *)
Lemma digits2_pos_le (p : positive) (k : Z) :
  0 <= k -> Zpos p < 2 ^ k -> Zpos (digits2_pos p) <= k.
Proof.
  intros Hk Hlt. destruct (digits2_pos_bounds p) as [Hlo _].
  destruct (Z_le_gt_dec (Zpos (digits2_pos p)) k) as [|Hgt]; [assumption|].
  exfalso.
  assert (2 ^ (k + 1) <= 2 ^ Zpos (digits2_pos p)) by (apply Z.pow_le_mono_r; lia).
  rewrite Z.pow_add_r in H by lia. change (2 ^ 1) with 2 in H. lia.
Qed.

Lemma digits2_pos_gt (p : positive) (k : Z) :
  0 <= k -> 2 ^ k <= Zpos p -> k < Zpos (digits2_pos p).
Proof.
  intros Hk Hle. destruct (digits2_pos_bounds p) as [_ Hhi].
  destruct (Z_lt_le_dec k (Zpos (digits2_pos p))) as [|Hge]; [assumption|].
  exfalso.
  assert (2 ^ Zpos (digits2_pos p) <= 2 ^ k) by (apply Z.pow_le_mono_r; lia).
  lia.
Qed.

Lemma iter_xO (m d : positive) :
  Zpos (Pos.iter xO m d) = Zpos m * 2 ^ Zpos d.
Proof.
  induction d as [|d IH] using Pos.peano_ind.
  - simpl. lia.
  - rewrite Pos.iter_succ, Pos2Z.inj_succ, Z.pow_succ_r by lia.
    rewrite Pos2Z.inj_xO, IH. lia.
Qed.

Lemma shl_align_value (m : positive) (e e' : Z) :
  e' <= e ->
  Zpos (fst (shl_align m e e')) = Zpos m * 2 ^ (e - e').
Proof.
  intros Hle. unfold shl_align.
  destruct (e' - e) as [|d|d] eqn:E; try lia.
  - replace (e - e') with 0 by lia. simpl. lia.
  - simpl fst. rewrite iter_xO. f_equal. f_equal. lia.
Qed.

Lemma shl_align_same (m : positive) (e e' : Z) :
  e <= e' -> shl_align m e e' = (m, e).
Proof.
  intros Hle. unfold shl_align.
  destruct (e' - e) as [|d|d] eqn:E; try lia; reflexivity.
Qed.

Lemma represents_shr_1 (M P : Z) (r : shr_record) :
  represents M P r -> represents M (2 * P) (shr_1 r).
Proof.
  intros (q & rem & HM & Hrem & Hq & Hm & Hr & Hs).
  destruct r as [m br bs]. cbn [shr_m shr_r shr_s] in Hm, Hr, Hs. subst m.
  assert (Hsticky : br || bs = negb (rem =? 0)).
  { rewrite Hr, Hs.
    destruct (Z.leb_spec P (2 * rem)), (Z.eqb_spec rem 0), (Z.eqb_spec (2 * rem) P);
      simpl; try reflexivity; lia. }
  unfold shr_1.
  destruct q as [|[q'|q'|]|q']; try lia.
  - exists 0, rem. cbn [shr_m shr_r shr_s]. rewrite Hsticky. repeat split; lia.
  - exists (Zpos q'), (P + rem). cbn [shr_m shr_r shr_s]. rewrite Hsticky.
    repeat split; lia.
  - exists (Zpos q'), rem. cbn [shr_m shr_r shr_s]. rewrite Hsticky.
    repeat split; lia.
  - exists 0, (P + rem). cbn [shr_m shr_r shr_s]. rewrite Hsticky.
    repeat split; lia.
Qed.

Lemma represents_iter (M : Z) (p : positive) :
  forall (P : Z) (r : shr_record),
    represents M P r -> represents M (P * 2 ^ Zpos p) (iter_pos shr_1 p r).
Proof.
  induction p as [p IH|p IH|]; intros P r Hr; simpl iter_pos.
  - assert (E : 2 ^ Zpos p~1 = 2 * (2 ^ Zpos p * 2 ^ Zpos p)).
    { rewrite <- Z.pow_add_r, <- Z.pow_succ_r by lia. f_equal. lia. }
    rewrite E.
    replace (P * (2 * (2 ^ Zpos p * 2 ^ Zpos p)))
      with (2 * P * 2 ^ Zpos p * 2 ^ Zpos p) by ring.
    apply IH, IH, represents_shr_1, Hr.
  - assert (E : 2 ^ Zpos p~0 = 2 ^ Zpos p * 2 ^ Zpos p).
    { rewrite <- Z.pow_add_r by lia. f_equal. lia. }
    rewrite E, Z.mul_assoc. apply IH, IH, Hr.
  - change (2 ^ 1) with 2. rewrite Z.mul_comm. apply represents_shr_1, Hr.
Qed.

Lemma represents_start (M : Z) :
  0 <= M -> represents M 1 (Build_shr_record M false false).
Proof.
  intros HM. exists M, 0. cbn [shr_m shr_r shr_s]. repeat split; try lia.
Qed.

(** Rounding to nearest *)
Lemma nearest (M P : Z) (r : shr_record) :
  represents M P r ->
  let R := round_nearest_even (shr_m r) (loc_of_shr_record r) in
  0 <= R /\ - P <= 2 * (R * P - M) <= P.
Proof.
  intros (q & rem & HM & Hrem & Hq & Hm & Hr & Hs).
  destruct r as [m br bs]. cbn [shr_m shr_r shr_s] in Hm, Hr, Hs. subst m.
  cbn [shr_m]. unfold loc_of_shr_record, round_nearest_even.
  destruct (Z.leb_spec P (2 * rem)), (Z.eqb_spec rem 0), (Z.eqb_spec (2 * rem) P);
    subst br bs; cbn [negb orb]; try lia;
    try (destruct (Z.even q)); split; try lia; nia.
Qed.

(** shr *)
Lemma shr_spec (M e n : Z) :
  0 <= M ->
  represents M (2 ^ Z.max 0 n) (fst (shr (Build_shr_record M false false) e n)) /\
  snd (shr (Build_shr_record M false false) e n) = e + Z.max 0 n.
Proof.
  intros HM. unfold shr. destruct n as [|p|p]; cbn [fst snd].
  - split; [apply represents_start, HM|lia].
  - replace (Z.max 0 (Zpos p)) with (Zpos p) by lia. split; [|reflexivity].
    replace (2 ^ Zpos p) with (1 * 2 ^ Zpos p) by lia.
    apply represents_iter, represents_start, HM.
  - replace (Z.max 0 (Zneg p)) with 0 by lia.
    split; [apply represents_start, HM|lia].
Qed.

Lemma fexp_eq (x : Z) : fexp 53 1024 x = Z.max (x - 53) (-1074).
Proof. reflexivity. Qed.

Lemma round_aux_spec (M : positive) (E : Z) :
  exists R q,
    let k1 := Z.max 0 (fexp 53 1024 (Zpos (digits2_pos M) + E) - E) in
    let k2 := Z.max 0 (fexp 53 1024 (Zdigits2 R + (E + k1)) - (E + k1)) in
    0 <= R /\
    - 2 ^ k1 <= 2 * (R * 2 ^ k1 - Zpos M) <= 2 ^ k1 /\
    0 <= q /\ q * 2 ^ k2 <= R < (q + 1) * 2 ^ k2 /\
    binary_round_aux 53 1024 false (Zpos M) E loc_Exact = finish q (E + k1 + k2).
Proof.
  unfold binary_round_aux, shr_fexp. cbn [shr_record_of_loc Zdigits2].
  set (n1 := fexp 53 1024 (Zpos (digits2_pos M) + E) - E).
  destruct (shr_spec (Zpos M) E n1) as [Hrep1 He1]; [lia|].
  destruct (shr (Build_shr_record (Zpos M) false false) E n1) as [r1 e1].
  cbn [fst snd] in Hrep1, He1. subst e1.
  destruct (nearest _ _ _ Hrep1) as [HR Hnear].
  set (R := round_nearest_even (shr_m r1) (loc_of_shr_record r1)) in *.
  set (n2 := fexp 53 1024 (Zdigits2 R + (E + Z.max 0 n1)) - (E + Z.max 0 n1)).
  destruct (shr_spec R (E + Z.max 0 n1) n2) as [Hrep2 He2]; [exact HR|].
  destruct (shr (Build_shr_record R false false) (E + Z.max 0 n1) n2) as [r2 e2].
  cbn [fst snd] in Hrep2, He2. subst e2.
  destruct Hrep2 as (q & rem & HRq & Hrem & Hq & Hm & _ & _).
  exists R, q. cbn zeta. fold n2.
  repeat split; try lia.
  rewrite Hm. reflexivity.
Qed.

Lemma pow2_le_shift (x y a b c d : Z) :
  0 <= a -> 0 <= b -> 0 <= c -> 0 <= d -> a + d = b + c ->
  x * 2 ^ a <= y * 2 ^ b -> x * 2 ^ c <= y * 2 ^ d.
Proof.
  intros Ha Hb Hc Hd Hsum Hle.
  apply (Z.mul_le_mono_pos_r _ _ (2 ^ a)); [now apply pow2_pos|].
  replace (x * 2 ^ c * 2 ^ a) with (x * 2 ^ a * 2 ^ c) by ring.
  replace (y * 2 ^ d * 2 ^ a) with (y * 2 ^ b * 2 ^ c).
  - apply Z.mul_le_mono_nonneg_r; [apply Z.lt_le_incl; now apply pow2_pos|exact Hle].
  - rewrite <- !Z.mul_assoc, <- !Z.pow_add_r by lia. do 2 f_equal. lia.
Qed.

Lemma Zdigits2_le (R k : Z) :
  0 <= R -> 0 <= k -> R < 2 ^ k -> Zdigits2 R <= k.
Proof.
  intros HR Hk Hlt. destruct R as [|p|p]; simpl; try lia.
  now apply digits2_pos_le.
Qed.

Lemma mul_900000 (m : positive) (e : Z) :
  Zpos m < 2 ^ 53 -> -1074 <= e <= -53 ->
  SFmul 53 1024 (S754_finite false m e) (S754_finite false c900000 (-33))
    = S754_zero false \/
  exists mp ep,
    SFmul 53 1024 (S754_finite false m e) (S754_finite false c900000 (-33))
      = S754_finite false mp ep /\
    forall z, z <= ep -> z <= -33 ->
      Zpos mp * 2 ^ (ep - z) <= (Zpos c900000 - 1) * 2 ^ (-33 - z).
Proof.
  intros Hm He. unfold SFmul. cbn [xorb].
  destruct (round_aux_spec (m * c900000) (e + -33))
    as (R & q & HR & Hnear & Hq & HqR & ->).
  set (d := Zpos (digits2_pos (m * c900000))) in *.
  rewrite !fexp_eq in *.
  change (2 ^ 53) with 9007199254740992 in Hm.
  assert (HM : Zpos (m * c900000) = Zpos m * 7730941132800000) by reflexivity.
  assert (Hdlo : 52 < d).
  { apply digits2_pos_gt; [lia|]. change (2 ^ 52) with 4503599627370496. lia. }
  assert (Hdhi : d <= 106).
  { apply digits2_pos_le; [lia|].
    change (2 ^ 106) with (9007199254740992 * 9007199254740992). nia. }
  set (t1 := Z.max (d + (e + -33) - 53) (-1074)) in *.
  replace (Z.max 0 (t1 - (e + -33))) with (t1 - (e + -33)) in * by lia.
  replace (e + -33 + (t1 - (e + -33))) with t1 in * by lia.
  set (P := 2 ^ (t1 - (e + -33))) in *.
  assert (HP : 0 < P) by (apply pow2_pos; lia).
  assert (HMd : Zpos (m * c900000) < 9007199254740992 * P).
  { destruct (digits2_pos_bounds (m * c900000)) as [_ Hhi]. fold d in Hhi.
    assert (2 ^ d <= 2 ^ (53 + (t1 - (e + -33)))) by (apply Z.pow_le_mono_r; lia).
    rewrite Z.pow_add_r in H by lia. fold P in H.
    change (2 ^ 53) with 9007199254740992 in H. lia. }
  assert (HR53 : R <= 9007199254740992) by nia.
  assert (Hbound : R <= (Zpos c900000 - 1) * 2 ^ (-33 - t1)).
  { destruct (Z.eq_dec t1 (-33)) as [Et|Nt].
    - assert (e = -53) by lia. subst e.
      assert (EP : P = 9007199254740992).
      { unfold P. rewrite Et. reflexivity. }
      rewrite Et. change (2 ^ (-33 - -33)) with 1.
      unfold c900000 in *. rewrite EP in *. lia.
    - assert (2 ^ 1 <= 2 ^ (-33 - t1)) by (apply Z.pow_le_mono_r; lia).
      change (2 ^ 1) with 2 in H. unfold c900000. nia. }
  set (k2 := Z.max 0 (Z.max (Zdigits2 R + t1 - 53) (-1074) - t1)) in *.
  assert (Hk2 : 0 <= k2 <= 1).
  { assert (Zdigits2 R <= 54).
    { apply Zdigits2_le; [lia|lia|]. change (2 ^ 54) with 18014398509481984. lia. }
    lia. }
  unfold finish. destruct q as [|mp|mp]; [now left| |lia].
  right. exists mp, (t1 + k2).
  change (Number.emax - Number.prec) with 971.
  replace (t1 + k2 <=? 971) with true by lia.
  split; [reflexivity|].
  intros z Hz1 Hz2.
  apply (pow2_le_shift _ _ k2 (-33 - t1)); try lia.
Qed.

Lemma pow2_split (a b : Z) : 0 <= a -> 0 <= b -> 2 ^ (a + b) = 2 ^ a * 2 ^ b.
Proof. intros. now apply Z.pow_add_r. Qed.

Lemma add_100000 (mp : positive) (ep : Z) :
  (forall z, z <= ep -> z <= -33 ->
     Zpos mp * 2 ^ (ep - z) <= (Zpos c900000 - 1) * 2 ^ (-33 - z)) ->
  exists n,
    Number.floor (SFadd 53 1024 (S754_finite false c100000 (-36)) (S754_finite false mp ep))
      = Some n /\
    100000 <= n <= 999999.
Proof.
  intros Hp. unfold SFadd. cbn [cond_Zopp].
  set (ez := Z.min (-36) ep).
  specialize (Hp ez ltac:(lia) ltac:(lia)).
  rewrite <- Pos2Z.inj_add. unfold binary_normalize, binary_round.
  set (x := fst (shl_align c100000 (-36) ez)).
  set (y := fst (shl_align mp ep ez)).
  assert (Hx : Zpos x = Zpos c100000 * 2 ^ (-36 - ez))
    by (apply shl_align_value; lia).
  assert (Hy : Zpos y = Zpos mp * 2 ^ (ep - ez))
    by (apply shl_align_value; lia).
  (* the exact sum, in units of 2^ez *)
  set (A := 2 ^ (- ez)).
  set (B := 2 ^ (-33 - ez)) in *.
  assert (HB : 0 < B) by (apply pow2_pos; lia).
  assert (HA : A = 8589934592 * B).
  { unfold A, B. replace (- ez) with (33 + (-33 - ez)) by lia.
    rewrite pow2_split by lia. reflexivity. }
  assert (HxA : Zpos x = 100000 * A).
  { rewrite Hx. unfold A. replace (- ez) with (36 + (-36 - ez)) by lia.
    rewrite pow2_split by lia. change (2 ^ 36) with 68719476736.
    unfold c100000. lia. }
  assert (HS : 100000 * A <= Zpos (x + y) <= 1000000 * A - B).
  { rewrite Pos2Z.inj_add, HxA, Hy. unfold c900000 in Hp. lia. }
  set (ds := Zpos (digits2_pos (x + y))).
  assert (Hds : 16 - ez < ds <= 20 - ez).
  { split.
    - apply digits2_pos_gt; [lia|].
      replace (16 - ez) with (16 + - ez) by lia. rewrite pow2_split by lia.
      fold A. change (2 ^ 16) with 65536. lia.
    - apply digits2_pos_le; [lia|].
      replace (20 - ez) with (20 + - ez) by lia. rewrite pow2_split by lia.
      fold A. change (2 ^ 20) with 1048576. lia. }
  rewrite fexp_eq. fold ds.
  set (t2 := Z.max (ds + ez - 53) (-1074)).
  assert (Ht2 : -36 <= t2 <= -33) by lia.
  rewrite shl_align_same by lia.
  destruct (round_aux_spec (x + y) ez) as (R & q & HR & Hnear & Hq & HqR & ->).
  rewrite !fexp_eq in *. fold ds in Hnear, HqR |- *. fold t2 in Hnear, HqR |- *.
  replace (Z.max 0 (t2 - ez)) with (t2 - ez) in * by lia.
  replace (ez + (t2 - ez)) with t2 in * by lia.
  set (P := 2 ^ (t2 - ez)) in *.
  set (T := 2 ^ (- t2)).
  set (v := 2 ^ (-33 - t2)).
  assert (HP : 0 < P) by (apply pow2_pos; lia).
  assert (Hv : 1 <= v).
  { assert (0 < v) by (apply pow2_pos; lia). lia. }
  assert (HT : T = 8589934592 * v).
  { unfold T, v. replace (- t2) with (33 + (-33 - t2)) by lia.
    rewrite pow2_split by lia. reflexivity. }
  assert (HBP : B = v * P).
  { unfold B, v, P. rewrite <- pow2_split by lia. f_equal. lia. }
  assert (HRlo : 100000 * T <= R) by nia.
  assert (HRhi : R <= 1000000 * T - v) by nia.
  set (k2 := Z.max 0 (Z.max (Zdigits2 R + t2 - 53) (-1074) - t2)) in *.
  assert (Hk2 : 0 <= k2 /\ t2 + k2 <= -33).
  { assert (Zdigits2 R <= 20 - t2).
    { apply Zdigits2_le; [lia|lia|].
      replace (20 - t2) with (20 + - t2) by lia. rewrite pow2_split by lia.
      fold T. change (2 ^ 20) with 1048576. lia. }
    lia. }
  set (Q := 2 ^ k2) in *.
  set (V := 2 ^ (- (t2 + k2))).
  assert (HQ : 0 < Q) by (apply pow2_pos; lia).
  assert (HV : 0 < V) by (apply pow2_pos; lia).
  assert (HVQ : T = V * Q).
  { unfold T, V, Q. rewrite <- pow2_split by lia. f_equal. lia. }
  assert (Hqlo : 100000 * V <= q) by nia.
  assert (Hqhi : q < 1000000 * V) by nia.
  unfold finish. destruct q as [|mq|mq]; [lia| |lia].
  replace (ez + (t2 - ez) + k2) with (t2 + k2) by lia.
  change (Number.emax - Number.prec) with 971.
  replace (t2 + k2 <=? 971) with true by lia.
  cbn [Number.floor cond_Zopp]. eexists. split; [reflexivity|].
  rewrite Z.shiftl_div_pow2 by lia. fold V.
  split.
  - apply Z.div_le_lower_bound; lia.
  - assert (Zpos mq / V < 1000000); [|lia].
    apply Z.div_lt_upper_bound; lia.
Qed.

End Binary64.

(** ** The repository under the uniqueness of emails *)

Section Repository.

Import Users.

Lemma eq_true (c : option string) (v : Js.field) :
  Query.eq c v = true <-> c = Some (Js.template v).
Proof.
  destruct c as [s|]; simpl.
  - rewrite String.eqb_eq. split; congruence.
  - split; discriminate.
Qed.

Lemma by_email_true (e : Js.field) (u : row) :
  by_email e u = true <-> email u = Js.template e.
Proof.
  unfold by_email. rewrite eq_true. split; congruence.
Qed.

Lemma by_email_false (e : Js.field) (u : row) :
  by_email e u = false <-> email u <> Js.template e.
Proof.
  rewrite <- by_email_true. destruct (by_email e u); split; congruence.
Qed.

Lemma by_email_and_otp_true (e o : Js.field) (u : row) :
  by_email_and_otp e o u = true <->
  email u = Js.template e /\ otp u = Some (Js.template o).
Proof.
  unfold by_email_and_otp. rewrite andb_true_iff, !eq_true.
  split; intros [H1 H2]; split; congruence.
Qed.

Lemma filter_nothing (p : row -> bool) (t : table) :
  (forall v, In v t -> p v = false) -> filter p t = [].
Proof.
  induction t as [|a t IH]; intros H; simpl; [reflexivity|].
  rewrite (H a (or_introl Logic.eq_refl)). apply IH.
  intros v Hv. apply H. now right.
Qed.

(** A filter that only keeps rows of one email keeps at most the row
    of that email. *)
Lemma filter_unique (p : row -> bool) (t : table) (u : row) :
  unique_emails t -> In u t ->
  (forall v, p v = true -> email v = email u) ->
  filter p t = if p u then [u] else [].
Proof.
  unfold unique_emails. induction t as [|a t IH]; intros Hnd Hin Hp; [destruct Hin|].
  simpl in Hnd. inversion Hnd as [|x l Hnotin Hnd']; subst.
  assert (Hrest : forall v, In v t -> email v = email a -> False).
  { intros v Hv Hev. apply Hnotin. rewrite <- Hev. now apply in_map. }
  destruct Hin as [->|Hin].
  - simpl. rewrite (filter_nothing p t).
    + destruct (p u); reflexivity.
    + intros v Hv. destruct (p v) eqn:Epv; [|reflexivity].
      exfalso. apply (Hrest v Hv). now apply Hp.
  - simpl. destruct (p a) eqn:Epa.
    + exfalso. apply (Hrest u Hin). symmetry. now apply Hp.
    + now apply IH.
Qed.

Lemma unique_split (t : table) (u : row) :
  unique_emails t -> In u t ->
  exists pre post, t = (pre ++ u :: post)%list /\
    (forall v, In v pre -> email v <> email u) /\
    (forall v, In v post -> email v <> email u).
Proof.
  unfold unique_emails. intros Hnd Hin.
  destruct (in_split _ _ Hin) as (pre & post & ->).
  exists pre, post. split; [reflexivity|].
  rewrite map_app in Hnd. simpl in Hnd.
  apply NoDup_remove_2 in Hnd. rewrite in_app_iff in Hnd.
  split; intros v Hv Hev; apply Hnd; [left|right];
    rewrite <- Hev; now apply in_map.
Qed.

Lemma map_untouched (p : row -> bool) (change : row -> row) (l : table) :
  (forall v, In v l -> p v = false) ->
  map (fun v => if p v then change v else v) l = l.
Proof.
  induction l as [|a l IH]; intros H; simpl; [reflexivity|].
  rewrite (H a (or_introl Logic.eq_refl)). f_equal. apply IH.
  intros v Hv. apply H. now right.
Qed.

(** An update filtered by an email changes the row of that email and
    no other. *)
Lemma update_unique (env : Env) (k : nat) (change : row -> row)
    (e : Js.field) (pre post : table) (u : row) :
  unserved env k = false ->
  email u = Js.template e ->
  (forall v, In v pre -> email v <> email u) ->
  (forall v, In v post -> email v <> email u) ->
  update env k change (by_email e) (pre ++ u :: post) =
    (None, (pre ++ change u :: post)%list).
Proof.
  intros Hk Hu Hpre Hpost. unfold update. rewrite Hk. f_equal.
  rewrite map_app. simpl.
  assert (Hpu : by_email e u = true) by now apply by_email_true.
  rewrite Hpu.
  rewrite !map_untouched; [reflexivity| |];
    intros v Hv; apply by_email_false; rewrite <- Hu; auto.
Qed.

(** A row is found by its email and its stored OTP. *)
Lemma select_by_email_and_otp (env : Env) (t : table) (u : row) (code : string) :
  unique_emails t -> In u t -> otp u = Some code ->
  unserved env 0 = false ->
  select_single env 0 (by_email_and_otp (Some (email u)) (Some code)) t
    = (Some u, None).
Proof.
  intros Hnd Hin Hotp Hk. unfold select_single. rewrite Hk.
  rewrite (filter_unique _ t u Hnd Hin).
  - assert (H : by_email_and_otp (Some (email u)) (Some code) u = true)
      by (apply by_email_and_otp_true; simpl; auto).
    rewrite H. reflexivity.
  - intros v Hv. apply by_email_and_otp_true in Hv. now destruct Hv.
Qed.

(** A row is found by its email. *)
Lemma select_by_email (env : Env) (t : table) (u : row) (e : Js.field) :
  unique_emails t -> In u t -> email u = Js.template e ->
  unserved env 0 = false ->
  select_single env 0 (by_email e) t = (Some u, None).
Proof.
  intros Hnd Hin He Hk. unfold select_single. rewrite Hk.
  rewrite (filter_unique _ t u Hnd Hin).
  - assert (H : by_email e u = true) by now apply by_email_true.
    rewrite H. reflexivity.
  - intros v Hv. apply by_email_true in Hv. congruence.
Qed.

(** Whatever a selection returns is a row of the table that passes
    the filters. *)
Lemma select_single_sound (env : Env) (k : nat) (p : row -> bool)
    (t : table) (u : row) (err : option PgError) :
  select_single env k p t = (Some u, err) -> In u t /\ p u = true.
Proof.
  unfold select_single, single. destruct (unserved env k); [discriminate|].
  destruct (filter p t) as [|a [|b l]] eqn:E; try discriminate.
  intros H. injection H as <- _.
  apply filter_In. rewrite E. now left.
Qed.

End Repository.

(** ** The OTP a handler stores and sends *)

Section Issuing.

Import Users.

Lemma update_rows (env : Env) (k : nat) (change : row -> row)
    (p : row -> bool) (t : table) (u' : row) :
  In u' (snd (update env k change p t)) ->
  In u' t \/ exists u, In u t /\ u' = change u.
Proof.
  unfold update. destruct (unserved env k); cbn [snd]; [now left|].
  rewrite in_map_iff. intros (u & Hu & Hin).
  destruct (p u); subst u'; [right; now exists u|now left].
Qed.

Lemma update_keeps_emails (env : Env) (k : nat) (change : row -> row)
    (p : row -> bool) (t : table) :
  (forall u, email (change u) = email u) ->
  map email (snd (update env k change p t)) = map email t.
Proof.
  intros Hc. unfold update. destruct (unserved env k); cbn [snd]; [reflexivity|].
  rewrite map_map. apply map_ext. intros u. destruct (p u); [apply Hc|reflexivity].
Qed.

Lemma insert_keeps_unique (env : Env) (k : nat) (b : Register.body)
    (code : string) (t : table) :
  unique_emails t -> unique_emails (snd (insert env k b code t)).
Proof.
  unfold unique_emails, insert. intros Hnd.
  destruct (unserved env k); [exact Hnd|].
  destruct (Register.email b) as [e|]; [|exact Hnd].
  destruct (existsb _ t) eqn:Ex; [exact Hnd|]. cbn [snd].
  rewrite map_app. cbn [map new_row email].
  assert (Hadd : Add e (map email t) (map email t ++ [e])).
  { rewrite <- (app_nil_r (map email t)) at 1. apply Add_app. }
  apply (NoDup_Add Hadd). split; [exact Hnd|].
  intros Hin. apply in_map_iff in Hin. destruct Hin as (u & Hu & Hin).
  assert (Hex : existsb (fun u => String.eqb (email u) e) t = true).
  { apply existsb_exists. exists u. split; [exact Hin|]. now apply String.eqb_eq. }
  congruence.
Qed.

Lemma issues_refl (code : string) (w : World) : issues code w w.
Proof. split; intros x Hx; now left. Qed.

Lemma issues_sent (env : Env) (code : string) (w w1 w2 : World)
    (to_ : Js.field) (subject_ : string) (html_ : Html) :
  otp_of html_ = Some code ->
  (forall u, In u (users w1) -> In u (users w) \/ otp u = Some code) ->
  outbox w1 = outbox w ->
  sendEmail env w1 to_ subject_ html_ = Some w2 ->
  issues code w w2.
Proof.
  intros Hh Hrows Hout. unfold sendEmail.
  destruct (delivers env); [|discriminate]. intros H. injection H as <-.
  split; cbn [users outbox]; [exact Hrows|].
  intros m Hm. rewrite Hout in Hm. apply in_app_or in Hm.
  destruct Hm as [Hm|[<-|[]]]; [now left|right; exact Hh].
Qed.

(** [/register] stores and sends nothing but the OTP it has drawn. *)
Lemma register_issues (env : Env) (w : World) (b : Register.body) :
  issues (fresh_otp (random env)) w (snd (register env w b)).
Proof.
  unfold register.
  destruct (insert env 0 b _ (users w)) as [[err|] t] eqn:Ei;
    [apply issues_refl|].
  assert (Hrows : forall u, In u t ->
            In u (users w) \/ otp u = Some (fresh_otp (random env))).
  { revert Ei. unfold insert. destruct (unserved env 0); [discriminate|].
    destruct (Register.email b) as [e|]; [|discriminate].
    destruct (existsb _ (users w)); [discriminate|].
    intros H. injection H as <-. intros u Hu. apply in_app_or in Hu.
    destruct Hu as [Hu|[<-|[]]]; [now left|now right]. }
  destruct (sendEmail env (with_users w t) _ _ _) as [w2|] eqn:Es; cbn [snd].
  - refine (issues_sent env _ w (with_users w t) w2 _ _ _ _ Hrows Logic.eq_refl Es).
    reflexivity.
  - split; [exact Hrows|]. intros m Hm. now left.
Qed.

(** [/login] stores and sends nothing but the OTP it has drawn. *)
Lemma login_issues (env : Env) (w : World) (email_ : Js.field) :
  issues (fresh_otp (random env)) w (snd (login env w email_)).
Proof.
  unfold login.
  destruct (select_single env 0 _ (users w)) as [[user|] [err|]];
    try apply issues_refl.
  destruct (negb (email_verified user)); [apply issues_refl|].
  destruct (negb (approved_by_admin user)); [apply issues_refl|].
  destruct (update env 1 _ _ (users w)) as [e1 t] eqn:Eu.
  assert (Hrows : forall u, In u t ->
            In u (users w) \/ otp u = Some (fresh_otp (random env))).
  { intros u Hu. replace t with (snd (update env 1
      (set_otp (fresh_otp (random env))) (by_email email_) (users w))) in Hu
      by (rewrite Eu; reflexivity).
    apply update_rows in Hu. destruct Hu as [Hu|(v & _ & ->)]; [now left|now right]. }
  destruct (sendEmail env (with_users w t) _ _ _) as [w2|] eqn:Es; cbn [snd].
  - refine (issues_sent env _ w (with_users w t) w2 _ _ _ _ Hrows Logic.eq_refl Es).
    reflexivity.
  - split; [exact Hrows|]. intros m Hm. now left.
Qed.

(** [/resend-otp] stores and sends nothing but the OTP it has drawn. *)
Lemma resend_otp_issues (env : Env) (w : World) (email_ : Js.field) :
  issues (fresh_otp (random env)) w (snd (resend_otp env w email_)).
Proof.
  unfold resend_otp.
  destruct (negb (Js.truthy email_)); [apply issues_refl|].
  destruct (select_single env 0 _ (users w)) as [[user|] [err|]];
    try apply issues_refl.
  destruct (otp_verified user); [apply issues_refl|].
  destruct (update env 1 _ _ (users w)) as [[e1|] t] eqn:Eu;
    [apply issues_refl|].
  assert (Hrows : forall u, In u t ->
            In u (users w) \/ otp u = Some (fresh_otp (random env))).
  { intros u Hu. replace t with (snd (update env 1
      (set_otp (fresh_otp (random env))) (by_email email_) (users w))) in Hu
      by (rewrite Eu; reflexivity).
    apply update_rows in Hu. destruct Hu as [Hu|(v & _ & ->)]; [now left|now right]. }
  destruct (sendEmail env (with_users w t) _ _ _) as [w2|] eqn:Es; cbn [snd].
  - refine (issues_sent env _ w (with_users w t) w2 _ _ _ _ Hrows Logic.eq_refl Es).
    reflexivity.
  - split; [exact Hrows|]. intros m Hm. now left.
Qed.

(** The uniqueness of emails is kept by every handler. *)
Lemma handlers_keep_unique_emails (env : Env) (w : World) :
  unique_emails (users w) ->
  (forall b, unique_emails (users (snd (register env w b)))) /\
  (forall e o, unique_emails (users (snd (verify_otp env w e o)))) /\
  (forall e, unique_emails (users (snd (login env w e)))) /\
  (forall e o, unique_emails (users (snd (verify_login env w e o)))) /\
  (forall e, unique_emails (users (snd (logout env w e)))) /\
  (forall e, unique_emails (users (snd (resend_otp env w e)))).
Proof.
  intros Hnd.
  assert (Hupd : forall k change p,
            (forall u, email (change u) = email u) ->
            unique_emails (snd (update env k change p (users w)))).
  { intros k change p Hc. unfold unique_emails.
    rewrite update_keeps_emails by exact Hc. exact Hnd. }
  assert (Hsent : forall w1 a b c,
            unique_emails (users w1) ->
            unique_emails (users match sendEmail env w1 a b c with
                                 | Some w2 => w2
                                 | None => w1
                                 end)).
  { intros w1 a b c H. unfold sendEmail. destruct (delivers env); exact H. }
  repeat split.
  - intros b. unfold register.
    pose proof (insert_keeps_unique env 0 b (fresh_otp (random env)) (users w) Hnd) as Hi.
    destruct (insert env 0 b _ (users w)) as [[err|] t]; [exact Hnd|].
    cbn [snd] in Hi.
    specialize (Hsent (with_users w t) (Register.email b)
                  "Verify Your Registration"
                  (WelcomeOtp (Register.name b) (fresh_otp (random env))) Hi).
    destruct (sendEmail env (with_users w t) _ _ _); exact Hsent.
  - intros e o. unfold verify_otp.
    destruct (select_single env 0 _ (users w)) as [[user|] [err|]]; try exact Hnd.
    specialize (Hupd 1%nat set_verified (by_email e) (fun u => Logic.eq_refl)).
    destruct (update env 1 _ _ (users w)). exact Hupd.
  - intros e. unfold login.
    destruct (select_single env 0 _ (users w)) as [[user|] [err|]]; try exact Hnd.
    destruct (negb (email_verified user)); [exact Hnd|].
    destruct (negb (approved_by_admin user)); [exact Hnd|].
    specialize (Hupd 1%nat (set_otp (fresh_otp (random env))) (by_email e)
                  (fun u => Logic.eq_refl)).
    destruct (update env 1 _ _ (users w)) as [e1 t]. cbn [snd] in Hupd.
    specialize (Hsent (with_users w t) e "Login OTP"
                  (LoginOtp (name user) (fresh_otp (random env))) Hupd).
    destruct (sendEmail env (with_users w t) _ _ _); exact Hsent.
  - intros e o. unfold verify_login.
    destruct (select_single env 0 _ (users w)) as [[user|] [err|]]; try exact Hnd.
    match goal with
    | |- context [update env 1 ?c ?p (users w)] =>
        specialize (Hupd 1%nat c p (fun u => Logic.eq_refl));
        destruct (update env 1 c p (users w)) as [e1 t]
    end.
    cbn [snd] in Hupd.
    specialize (Hsent (with_users w t) e "Login Successful"
                  (LoginSuccessful (name user) (date env 2)) Hupd).
    destruct (sendEmail env (with_users w t) _ _ _); exact Hsent.
  - intros e. unfold logout.
    destruct (select_single env 0 _ (users w)) as [[user|] err]; try exact Hnd.
    match goal with
    | |- context [update env 1 ?c ?p (users w)] =>
        specialize (Hupd 1%nat c p (fun u => Logic.eq_refl));
        destruct (update env 1 c p (users w)) as [e1 t]
    end.
    cbn [snd] in Hupd.
    specialize (Hsent (with_users w t) e "Logout Notification"
                  (LogoutNotification (name user) (date env 1)) Hupd).
    destruct (sendEmail env (with_users w t) _ _ _); exact Hsent.
  - intros e. unfold resend_otp.
    destruct (negb (Js.truthy e)); [exact Hnd|].
    destruct (select_single env 0 _ (users w)) as [[user|] [err|]]; try exact Hnd.
    destruct (otp_verified user); [exact Hnd|].
    specialize (Hupd 1%nat (set_otp (fresh_otp (random env))) (by_email e)
                  (fun u => Logic.eq_refl)).
    destruct (update env 1 _ _ (users w)) as [[e1|] t]; [exact Hnd|].
    cbn [snd] in Hupd.
    specialize (Hsent (with_users w t) e "Resend OTP - Email Verification"
                  (ResendOtp (name user) (fresh_otp (random env))) Hupd).
    destruct (sendEmail env (with_users w t) _ _ _); exact Hsent.
Qed.

End Issuing.

(** ** Confirming a login: [/verify-login] *)

Lemma sample_unique : Users.unique_emails (users Sample.registered).
Proof.
  unfold Users.unique_emails. simpl. constructor; [intros []|constructor].
Defined.

(** C1. For every account, [/verify-login] answers 200 with a signed
    token as soon as the supplied OTP equals the stored one: neither
    [email_verified] nor [approved_by_admin] is consulted, so the
    account may be unverified and unapproved.  The repository serves the
    lookup and the notifier delivers the mail. *)
Theorem verify_login_ignores_flags (env : Env) (w : World) (u : Users.row)
    (code : string) :
  Users.unique_emails (users w) ->
  In u (users w) ->
  Users.otp u = Some code ->
  unserved env 0 = false ->
  delivers env = true ->
  exists token,
    fst (verify_login env w (Some (Users.email u)) (Some code)) =
      Json 200 [("id", Str (Users.id u));
                ("name", column (Users.name u));
                ("email", Str (Users.email u));
                ("user_type", column (Users.user_type u));
                ("token", Token token)] /\
    token = jwt_sign {| payload_id := Users.id u;
                        payload_email := Users.email u;
                        payload_user_type := Users.user_type u |}
                     (JWT_SECRET env) "1h".
Proof.
  intros Hnd Hin Hotp Hserved Hmail.
  eexists. split; [|reflexivity].
  unfold verify_login.
  rewrite (select_by_email_and_otp env _ u code Hnd Hin Hotp Hserved).
  destruct (update env 1 _ _ _) as [e t].
  unfold sendEmail. rewrite Hmail. reflexivity.
Qed.

Lemma verify_login_ignores_flags_witness :
  Users.email_verified Sample.alice = false /\
  Users.approved_by_admin Sample.alice = false /\
  exists token,
    fst (verify_login Sample.env Sample.registered (Some "a@x.com") (Some "123456")) =
      Json 200 [("id", Str "7f9c0c1e"); ("name", Str "Alice");
                ("email", Str "a@x.com"); ("user_type", Str "intern");
                ("token", Token token)] /\
    token = jwt_sign {| payload_id := "7f9c0c1e";
                        payload_email := "a@x.com";
                        payload_user_type := Some "intern" |}
                     "secret" "1h".
Proof.
  split; [reflexivity|]. split; [reflexivity|].
  apply (verify_login_ignores_flags Sample.env Sample.registered Sample.alice
           "123456").
  - exact sample_unique.
  - left; reflexivity.
  - reflexivity.
  - reflexivity.
  - reflexivity.
Defined.



(** ** Confirming a registration: [/verify-otp] *)

(** C2, as stated, fails: with no account at all for the email the
    reply is the one given for a wrong code, 400 "Invalid OTP", and not
    a reply of cause [NotFound]. *)
Lemma verify_otp_unknown_email_says_invalid_otp :
  users Sample.empty = [] /\
  fst (verify_otp Sample.env Sample.empty (Some "a@x.com") (Some "123456"))
    = error 400 "Invalid OTP" /\
  failure_of (fst (verify_otp Sample.env Sample.empty (Some "a@x.com") (Some "123456")))
    <> Some NotFound /\
  fst (verify_otp Sample.env Sample.empty (Some "a@x.com") (Some "123456"))
    = fst (verify_otp Sample.env Sample.registered (Some "a@x.com") (Some "000000")).
Proof.
  repeat split. vm_compute. discriminate.
Qed.

(** C2, amended.  [/verify-otp] has one failure reply, 400 "Invalid
    OTP", and leaves the table as it was: it is given whenever no
    account has both the email and, as its stored OTP, exactly the
    supplied text, be it that no account has the email or that the
    account's stored OTP differs. *)
Theorem verify_otp_single_failure (env : Env) (w : World) (email otp : Js.field) :
  (forall u, In u (users w) ->
     Users.email u = Js.template email ->
     Users.otp u <> Some (Js.template otp)) ->
  verify_otp env w email otp = (error 400 "Invalid OTP", w) /\
  failure_of (fst (verify_otp env w email otp)) = Some InvalidOtp.
Proof.
  intros Hno.
  assert (E : verify_otp env w email otp = (error 400 "Invalid OTP", w)).
  { unfold verify_otp, select_single.
    destruct (unserved env 0); [reflexivity|].
    rewrite filter_nothing; [reflexivity|].
    intros v Hv. destruct (by_email_and_otp email otp v) eqn:E; [|reflexivity].
    apply by_email_and_otp_true in E. destruct E as [E1 E2].
    exfalso. exact (Hno v Hv E1 E2). }
  rewrite E. split; reflexivity.
Qed.

Lemma verify_otp_single_failure_witness :
  (verify_otp Sample.env Sample.empty (Some "a@x.com") (Some "123456")
     = (error 400 "Invalid OTP", Sample.empty) /\
   failure_of (fst (verify_otp Sample.env Sample.empty (Some "a@x.com") (Some "123456")))
     = Some InvalidOtp) /\
  (verify_otp Sample.env Sample.registered (Some "a@x.com") (Some "000000")
     = (error 400 "Invalid OTP", Sample.registered) /\
   failure_of (fst (verify_otp Sample.env Sample.registered (Some "a@x.com") (Some "000000")))
     = Some InvalidOtp).
Proof.
  split.
  - apply (verify_otp_single_failure Sample.env Sample.empty
             (Some "a@x.com") (Some "123456")).
    intros u [].
  - apply (verify_otp_single_failure Sample.env Sample.registered
             (Some "a@x.com") (Some "000000")).
    intros u [<-|[]] _. simpl. discriminate.
Defined.

(** C4. A successful [/verify-otp] sets [email_verified] and
    [otp_verified] together on the account and changes nothing else, the
    stored OTP included; the same request made again on the resulting
    table succeeds again. *)
Theorem verify_otp_sets_flags_keeps_otp (env : Env) (w : World)
    (u : Users.row) (code : string) :
  Users.unique_emails (users w) ->
  In u (users w) ->
  Users.otp u = Some code ->
  unserved env 0 = false ->
  unserved env 1 = false ->
  exists pre post w',
    users w = pre ++ u :: post /\
    verify_otp env w (Some (Users.email u)) (Some code) =
      (message "Email verified successfully.", w') /\
    w' = {| users := pre ++ Users.set_verified u :: post; outbox := outbox w |} /\
    Users.email_verified (Users.set_verified u) = true /\
    Users.otp_verified (Users.set_verified u) = true /\
    Users.otp (Users.set_verified u) = Users.otp u /\
    (forall env', unserved env' 0 = false ->
       fst (verify_otp env' w' (Some (Users.email u)) (Some code)) =
         message "Email verified successfully.").
Proof.
  intros Hnd Hin Hotp Hsel Hupd.
  destruct (unique_split _ _ Hnd Hin) as (pre & post & Ht & Hpre & Hpost).
  exists pre, post. eexists. split; [exact Ht|].
  split; [|split; [reflexivity|]].
  - unfold verify_otp.
    rewrite (select_by_email_and_otp env _ u code Hnd Hin Hotp Hsel).
    rewrite Ht.
    rewrite (update_unique env 1 _ (Some (Users.email u)) pre post u Hupd
               Logic.eq_refl Hpre Hpost).
    reflexivity.
  - repeat split.
    intros env' Hsel'. unfold verify_otp. cbn [users].
    rewrite (select_by_email_and_otp env' _ (Users.set_verified u) code).
    + destruct (update env' 1 _ _ _). reflexivity.
    + unfold Users.unique_emails in *. rewrite Ht in Hnd.
      rewrite map_app in *. exact Hnd.
    + apply in_or_app. right. left. reflexivity.
    + exact Hotp.
    + exact Hsel'.
Qed.

Lemma verify_otp_sets_flags_keeps_otp_witness :
  exists pre post w',
    users Sample.registered = pre ++ Sample.alice :: post /\
    verify_otp Sample.env Sample.registered (Some "a@x.com") (Some "123456") =
      (message "Email verified successfully.", w') /\
    w' = {| users := pre ++ Users.set_verified Sample.alice :: post;
            outbox := [] |} /\
    Users.email_verified (Users.set_verified Sample.alice) = true /\
    Users.otp_verified (Users.set_verified Sample.alice) = true /\
    Users.otp (Users.set_verified Sample.alice) = Some "123456" /\
    (forall env', unserved env' 0 = false ->
       fst (verify_otp env' w' (Some "a@x.com") (Some "123456")) =
         message "Email verified successfully.").
Proof.
  apply (verify_otp_sets_flags_keeps_otp Sample.env Sample.registered
           Sample.alice "123456").
  - exact sample_unique.
  - left; reflexivity.
  - reflexivity.
  - reflexivity.
  - reflexivity.
Defined.

(** ** Requesting a login OTP: [/login] *)

(** C3. [/login] answers 400 "User not found" when no account has the
    email, 403 "Email not verified" when the account's [email_verified]
    is false, whatever [approved_by_admin] is, and 403 "Not approved by
    admin" when the account is verified and [approved_by_admin] is
    false; the table is left as it was. *)
Theorem login_failure_order (env : Env) (w : World) (email : Js.field) :
  Users.unique_emails (users w) ->
  ((forall u, In u (users w) -> Users.email u <> Js.template email) ->
     login env w email = (error 400 "User not found", w) /\
     failure_of (error 400 "User not found") = Some NotFound) /\
  (forall u, In u (users w) -> Users.email u = Js.template email ->
     unserved env 0 = false ->
     (Users.email_verified u = false ->
        login env w email = (error 403 "Email not verified", w) /\
        failure_of (error 403 "Email not verified") = Some EmailNotVerified) /\
     (Users.email_verified u = true -> Users.approved_by_admin u = false ->
        login env w email = (error 403 "Not approved by admin", w) /\
        failure_of (error 403 "Not approved by admin") = Some NotApproved)).
Proof.
  intros Hnd. split.
  - intros Hno. split; [|reflexivity].
    unfold login, select_single.
    destruct (unserved env 0); [reflexivity|].
    rewrite filter_nothing; [reflexivity|].
    intros v Hv. apply by_email_false. now apply Hno.
  - intros u Hin He Hsel. split.
    + intros Hv. split; [|reflexivity].
      unfold login. rewrite (select_by_email env _ u email Hnd Hin He Hsel).
      rewrite Hv. reflexivity.
    + intros Hv Ha. split; [|reflexivity].
      unfold login. rewrite (select_by_email env _ u email Hnd Hin He Hsel).
      rewrite Hv, Ha. reflexivity.
Qed.

Lemma login_failure_order_witness :
  login Sample.env Sample.empty (Some "a@x.com")
    = (error 400 "User not found", Sample.empty) /\
  (Users.email_verified Sample.alice = false /\
   Users.approved_by_admin Sample.alice = false /\
   login Sample.env Sample.registered (Some "a@x.com")
     = (error 403 "Email not verified", Sample.registered)) /\
  (Users.email_verified (Users.set_verified Sample.alice) = true /\
   login Sample.env Sample.verified (Some "a@x.com")
     = (error 403 "Not approved by admin", Sample.verified)).
Proof.
  split; [|split].
  - destruct (login_failure_order Sample.env Sample.empty (Some "a@x.com"))
      as [Hnone _].
    + constructor.
    + apply Hnone. intros u [].
  - split; [reflexivity|]. split; [reflexivity|].
    destruct (login_failure_order Sample.env Sample.registered (Some "a@x.com")
                sample_unique) as [_ Hsome].
    destruct (Hsome Sample.alice) as [Hunverified _].
    + left; reflexivity.
    + reflexivity.
    + reflexivity.
    + apply Hunverified. reflexivity.
  - split; [reflexivity|].
    destruct (login_failure_order Sample.env Sample.verified (Some "a@x.com")
                sample_unique) as [_ Hsome].
    destruct (Hsome (Users.set_verified Sample.alice)) as [_ Hunapproved].
    + left; reflexivity.
    + reflexivity.
    + reflexivity.
    + apply Hunapproved; reflexivity.
Defined.

(** ** The audit trail: [login_records] *)

(** C6. Every successful [/verify-login] extends the [login_records] of
    its account by exactly one entry of action "login", and every
    successful [/logout] by exactly one of action "logout": the entries
    already there stay in place, in their order, the new one comes last,
    and no other row of the table changes.  The repository serves the
    update. *)
Theorem login_records_append_only (env : Env) (w : World) (email : Js.field) :
  Users.unique_emails (users w) ->
  unserved env 1 = false ->
  (forall otp r w',
     verify_login env w email otp = (r, w') -> succeeded r = true ->
     appends_one "login" email (users w) (users w')) /\
  (forall r w',
     logout env w email = (r, w') -> succeeded r = true ->
     appends_one "logout" email (users w) (users w')).
Proof.
  intros Hnd Hupd. split.
  - intros otp r w'. unfold verify_login.
    destruct (select_single env 0 _ (users w)) as [[user|] [err|]] eqn:Esel;
      try (intros H; injection H as <- <-; discriminate).
    apply select_single_sound in Esel. destruct Esel as [Hin Hp].
    apply by_email_and_otp_true in Hp. destruct Hp as [He _].
    destruct (unique_split _ _ Hnd Hin) as (pre & post & Ht & Hpre & Hpost).
    rewrite Ht.
    rewrite (update_unique env 1 _ email pre post user Hupd He Hpre Hpost).
    unfold sendEmail. destruct (delivers env);
      intros H; injection H as <- <-; [intros _|discriminate].
    exists pre, post, user. eexists. exists (date env 1).
    cbn [users with_users].
    repeat split; [exact He|].
    cbn [Users.set_login Users.login_records].
    rewrite length_app. simpl. lia.
  - intros r w'. unfold logout.
    destruct (select_single env 0 _ (users w)) as [[user|] err] eqn:Esel;
      try (intros H; injection H as <- <-; discriminate).
    apply select_single_sound in Esel. destruct Esel as [Hin Hp].
    apply by_email_true in Hp.
    destruct (unique_split _ _ Hnd Hin) as (pre & post & Ht & Hpre & Hpost).
    rewrite Ht.
    rewrite (update_unique env 1 _ email pre post user Hupd Hp Hpre Hpost).
    unfold sendEmail. destruct (delivers env);
      intros H; injection H as <- <-; [intros _|discriminate].
    exists pre, post, user. eexists. exists (date env 0).
    cbn [users with_users].
    repeat split; [exact Hp|].
    cbn [Users.set_login_records Users.login_records].
    rewrite length_app. simpl. lia.
Qed.

Lemma login_records_append_only_witness :
  appends_one "login" (Some "a@x.com") (users Sample.registered)
    (users (snd (verify_login Sample.env Sample.registered
                   (Some "a@x.com") (Some "123456")))) /\
  appends_one "logout" (Some "a@x.com")
    (users (snd (verify_login Sample.env Sample.registered
                   (Some "a@x.com") (Some "123456"))))
    (users (snd (logout Sample.env
                   (snd (verify_login Sample.env Sample.registered
                           (Some "a@x.com") (Some "123456")))
                   (Some "a@x.com")))).
Proof.
  split.
  - apply (login_records_append_only Sample.env Sample.registered
             (Some "a@x.com") sample_unique Logic.eq_refl)
      with (otp := Some "123456")
           (r := fst (verify_login Sample.env Sample.registered
                        (Some "a@x.com") (Some "123456"))).
    + reflexivity.
    + reflexivity.
  - apply (login_records_append_only Sample.env
             (snd (verify_login Sample.env Sample.registered
                     (Some "a@x.com") (Some "123456")))
             (Some "a@x.com"))
      with (r := fst (logout Sample.env
                        (snd (verify_login Sample.env Sample.registered
                                (Some "a@x.com") (Some "123456")))
                        (Some "a@x.com"))).
    + unfold Users.unique_emails. simpl. constructor; [intros []|constructor].
    + reflexivity.
    + reflexivity.
    + reflexivity.
Defined.

(** ** Creating an account: [/register] *)




(** ** Resending the registration OTP: [/resend-otp] *)

(** C8, as stated, fails on the verified account whose email is the
    empty string, an account that [/register] and [/verify-otp] create:
    the request for it is refused as 400 "Email is required", not as
    "Email already verified". *)
Lemma resend_otp_empty_email_is_required :
  users (snd (verify_otp Sample.env
                (snd (register Sample.env Sample.empty (Sample.body None (Some ""))))
                (Some "") (Some "550000")))
    = [Sample.nameless] /\
  Users.otp_verified Sample.nameless = true /\
  Users.email Sample.nameless = "" /\
  resend_otp Sample.env {| users := [Sample.nameless]; outbox := [] |} (Some "")
    = (error 400 "Email is required",
       {| users := [Sample.nameless]; outbox := [] |}) /\
  failure_of (fst (resend_otp Sample.env
                     {| users := [Sample.nameless]; outbox := [] |} (Some "")))
    <> Some AlreadyVerified.
Proof.
  repeat split. vm_compute. discriminate.
Qed.

(** C8, amended.  [/resend-otp] for an account whose email is not empty
    and whose [otp_verified] is true answers 400 "Email already
    verified" and leaves the table, hence the stored OTP, as it was. *)
Theorem resend_otp_already_verified (env : Env) (w : World) (u : Users.row) :
  Users.unique_emails (users w) ->
  In u (users w) ->
  Users.email u <> "" ->
  Users.otp_verified u = true ->
  unserved env 0 = false ->
  resend_otp env w (Some (Users.email u)) = (error 400 "Email already verified", w) /\
  failure_of (error 400 "Email already verified") = Some AlreadyVerified.
Proof.
  intros Hnd Hin Hne Hv Hsel. split; [|reflexivity].
  unfold resend_otp. simpl Js.truthy.
  destruct (String.eqb_spec (Users.email u) "") as [E|_]; [contradiction|].
  simpl negb. cbv iota.
  rewrite (select_by_email env _ u (Some (Users.email u)) Hnd Hin Logic.eq_refl Hsel).
  rewrite Hv. reflexivity.
Qed.

Lemma resend_otp_already_verified_witness :
  resend_otp Sample.env Sample.verified (Some "a@x.com")
    = (error 400 "Email already verified", Sample.verified) /\
  failure_of (error 400 "Email already verified") = Some AlreadyVerified.
Proof.
  apply (resend_otp_already_verified Sample.env Sample.verified
           (Users.set_verified Sample.alice)).
  - exact sample_unique.
  - left; reflexivity.
  - discriminate.
  - reflexivity.
  - reflexivity.
Defined.

(** C9. In [/resend-otp], when the mail cannot be sent after the fresh
    OTP has been written, the reply is the error of its own 500 "Failed
    to send OTP email", and the write stands: the fresh OTP is the
    stored OTP of the account, no other row having changed. *)
Theorem resend_otp_delivery_failure_keeps_otp (env : Env) (w : World)
    (u : Users.row) :
  Users.unique_emails (users w) ->
  In u (users w) ->
  Users.email u <> "" ->
  Users.otp_verified u = false ->
  unserved env 0 = false ->
  unserved env 1 = false ->
  delivers env = false ->
  exists pre post,
    users w = pre ++ u :: post /\
    resend_otp env w (Some (Users.email u)) =
      (error 500 "Failed to send OTP email",
       {| users := pre ++ Users.set_otp (fresh_otp (random env)) u :: post;
          outbox := outbox w |}) /\
    Users.otp (Users.set_otp (fresh_otp (random env)) u)
      = Some (fresh_otp (random env)) /\
    failure_of (error 500 "Failed to send OTP email") = Some DeliveryFailure /\
    error 500 "Failed to send OTP email" <> error 500 "Failed to update OTP".
Proof.
  intros Hnd Hin Hne Hv Hsel Hupd Hmail.
  destruct (unique_split _ _ Hnd Hin) as (pre & post & Ht & Hpre & Hpost).
  exists pre, post. split; [exact Ht|].
  split; [|split; [reflexivity|split; [reflexivity|discriminate]]].
  unfold resend_otp. simpl Js.truthy.
  destruct (String.eqb_spec (Users.email u) "") as [E|_]; [contradiction|].
  simpl negb. cbv iota.
  rewrite (select_by_email env _ u (Some (Users.email u)) Hnd Hin Logic.eq_refl Hsel).
  rewrite Hv, Ht.
  rewrite (update_unique env 1 _ (Some (Users.email u)) pre post u Hupd
             Logic.eq_refl Hpre Hpost).
  unfold sendEmail. rewrite Hmail. reflexivity.
Qed.

Lemma resend_otp_delivery_failure_keeps_otp_witness :
  exists pre post,
    users Sample.registered = pre ++ Sample.alice :: post /\
    resend_otp Sample.env_undelivered Sample.registered (Some "a@x.com") =
      (error 500 "Failed to send OTP email",
       {| users := pre ++ Users.set_otp (fresh_otp Sample.half) Sample.alice :: post;
          outbox := [] |}) /\
    Users.otp (Users.set_otp (fresh_otp Sample.half) Sample.alice)
      = Some (fresh_otp Sample.half) /\
    failure_of (error 500 "Failed to send OTP email") = Some DeliveryFailure /\
    error 500 "Failed to send OTP email" <> error 500 "Failed to update OTP".
Proof.
  apply (resend_otp_delivery_failure_keeps_otp Sample.env_undelivered
           Sample.registered Sample.alice).
  - exact sample_unique.
  - left; reflexivity.
  - discriminate.
  - reflexivity.
  - reflexivity.
  - reflexivity.
  - reflexivity.
Defined.

(** ** Generating an OTP *)

Section FreshOtp.

Import Rounding.

Lemma SFltb_positive (m m' : positive) (e e' : Z) :
  SFltb (S754_finite false m e) (S754_finite false m' e') = true ->
  e < e' \/ (e = e' /\ Zpos m < Zpos m').
Proof.
  unfold SFltb, SFcompare.
  change (Pos.compare_cont Eq m m') with (Pos.compare m m').
  destruct (Z.compare_spec e e') as [E|E|E]; intros Hlt.
  - right. split; [exact E|].
    destruct (Pos.compare m m') eqn:Ec; [discriminate| |discriminate].
    unfold Z.lt. cbn [Z.compare]. exact Ec.
  - left. exact E.
  - discriminate.
Qed.

(** A double that [Math.random()] may return is +0 or a positive
    canonical double with an exponent of at most -53. *)
Lemma unit_interval_finite (s : bool) (m : positive) (e : Z) :
  Number.unit_interval (S754_finite s m e) = true ->
  s = false /\ Zpos m < 2 ^ 53 /\ -1074 <= e <= -53.
Proof.
  unfold Number.unit_interval, valid_binary, bounded, canonical_mantissa.
  change (Number.literal 1) with (S754_finite false 4503599627370496 (-52)).
  rewrite !andb_true_iff, negb_true_iff, Z.eqb_eq, Z.leb_le, fexp_eq.
  intros [[Hcan _] [Hs Hlt]]. subst s. split; [reflexivity|].
  apply SFltb_positive in Hlt.
  destruct (digits2_pos_bounds m) as [Hlo Hhi].
  set (d := Zpos (digits2_pos m)) in *.
  assert (Hd : d <= 53) by lia.
  assert (Hm : Zpos m < 2 ^ 53).
  { assert (2 ^ d <= 2 ^ 53) by (apply Z.pow_le_mono_r; lia). lia. }
  split; [exact Hm|]. split; [lia|].
  destruct Hlt as [Hlt|[He Hlt]]; [lia|].
  exfalso.
  assert (Ed : d = 53) by lia.
  rewrite Ed in Hlo. change (2 ^ 53) with 9007199254740992 in Hlo. lia.
Qed.

(** The integer part of [100000 + r * 900000], computed in binary64,
    for every [r] that [Math.random()] may return. *)
Lemma floor_in_range (r : Number.double) :
  Number.unit_interval r = true ->
  exists n,
    Number.floor
      (Number.add (Number.literal 100000) (Number.mul r (Number.literal 900000)))
      = Some n /\
    100000 <= n <= 999999.
Proof.
  intros Hr.
  change (Number.literal 100000) with (S754_finite false c100000 (-36)).
  change (Number.literal 900000) with (S754_finite false c900000 (-33)).
  unfold Number.add, Number.mul, Number.prec, Number.emax.
  destruct r as [s|s| |s m e]; try discriminate.
  - destruct s; [discriminate|].
    exists 100000. split; [reflexivity|lia].
  - destruct (unit_interval_finite s m e Hr) as (-> & Hm & He).
    destruct (mul_900000 m e Hm He) as [->|(mp & ep & -> & Hp)].
    + exists 100000. split; [reflexivity|lia].
    + exact (add_100000 mp ep Hp).
Qed.

(** Linear arithmetic with quotients and remainders by constants. *)
Ltac euclid := Z.to_euclidean_division_equations; lia.

Lemma digit_value_digit (d : Z) :
  0 <= d <= 9 -> Number.digit_value (Number.digit d) = Some d.
Proof.
  intros Hd.
  assert (H : d = 0 \/ d = 1 \/ d = 2 \/ d = 3 \/ d = 4 \/
              d = 5 \/ d = 6 \/ d = 7 \/ d = 8 \/ d = 9) by lia.
  repeat (destruct H as [->|H]; [reflexivity|]). subst d. reflexivity.
Qed.

Lemma digits_more (fuel : nat) (n : Z) (acc : string) :
  n / 10 <> 0 ->
  Number.digits (S fuel) n acc =
    Number.digits fuel (n / 10) (String (Number.digit (n mod 10)) acc).
Proof.
  intros H. cbn [Number.digits].
  destruct (Z.eqb_spec (n / 10) 0); [contradiction|reflexivity].
Qed.

Lemma digits_last (fuel : nat) (n : Z) (acc : string) :
  n / 10 = 0 ->
  Number.digits (S fuel) n acc = String (Number.digit (n mod 10)) acc.
Proof.
  intros H. cbn [Number.digits]. rewrite H. reflexivity.
Qed.

(** The numeral of an integer between 100000 and 999999 has six
    decimal digits and reads back as that integer. *)
Lemma decimal_six_digits (n : Z) :
  100000 <= n <= 999999 ->
  String.length (Number.decimal n) = 6%nat /\
  Number.parse_decimal (Number.decimal n) = Some n.
Proof.
  intros Hn. unfold Number.decimal.
  replace (n <? 0) with false by lia.
  rewrite Z.abs_eq by lia.
  assert (Hlog : 16 <= Z.log2 n).
  { apply Z.log2_le_pow2; [lia|]. change (2 ^ 16) with 65536. lia. }
  destruct (Z.to_nat (Z.log2 n)) as [|[|[|[|[|fuel]]]]] eqn:Efuel; try lia.
  clear Efuel Hlog.
  rewrite (digits_more _ n) by euclid.
  rewrite (digits_more _ (n / 10)) by euclid.
  rewrite (digits_more _ (n / 10 / 10)) by euclid.
  rewrite (digits_more _ (n / 10 / 10 / 10)) by euclid.
  rewrite (digits_more _ (n / 10 / 10 / 10 / 10)) by euclid.
  rewrite (digits_last _ (n / 10 / 10 / 10 / 10 / 10)) by euclid.
  split; [reflexivity|].
  cbn [Number.parse_decimal Number.parse_digits].
  rewrite !digit_value_digit by euclid.
  f_equal. euclid.
Qed.

End FreshOtp.

(** C10. Whatever [Math.random()] returns, the OTP generated at lines
    73, 120 and 228 is the numeral of an integer between 100000 and
    999999: a string of six decimal digits that reads back as that
    integer.  It is the only OTP that [/register], [/login] and
    [/resend-otp] store in a row or send in a mail. *)
Theorem fresh_otp_six_digits (env : Env) :
  Number.unit_interval (random env) = true ->
  exists n,
    100000 <= n <= 999999 /\
    fresh_otp (random env) = Number.decimal n /\
    String.length (fresh_otp (random env)) = 6%nat /\
    Number.parse_decimal (fresh_otp (random env)) = Some n /\
    (forall w b, issues (Number.decimal n) w (snd (register env w b))) /\
    (forall w e, issues (Number.decimal n) w (snd (login env w e))) /\
    (forall w e, issues (Number.decimal n) w (snd (resend_otp env w e))).
Proof.
  intros Hr. destruct (floor_in_range (random env) Hr) as (n & Hfloor & Hn).
  exists n. split; [exact Hn|].
  assert (E : fresh_otp (random env) = Number.decimal n).
  { unfold fresh_otp, Number.floor_toString. rewrite Hfloor. reflexivity. }
  destruct (decimal_six_digits n Hn) as [Hlen Hparse].
  rewrite E. split; [reflexivity|]. split; [exact Hlen|]. split; [exact Hparse|].
  split; [|split]; intros w x; rewrite <- E.
  - apply register_issues.
  - apply login_issues.
  - apply resend_otp_issues.
Qed.

Lemma fresh_otp_six_digits_witness :
  exists n,
    100000 <= n <= 999999 /\
    fresh_otp Sample.below_one = Number.decimal n /\
    String.length (fresh_otp Sample.below_one) = 6%nat /\
    Number.parse_decimal (fresh_otp Sample.below_one) = Some n /\
    (forall w b, issues (Number.decimal n) w
                   (snd (register (Sample.drawing Sample.below_one) w b))) /\
    (forall w e, issues (Number.decimal n) w
                   (snd (login (Sample.drawing Sample.below_one) w e))) /\
    (forall w e, issues (Number.decimal n) w
                   (snd (resend_otp (Sample.drawing Sample.below_one) w e))).
Proof.
  apply (fresh_otp_six_digits (Sample.drawing Sample.below_one)).
  vm_compute. reflexivity.
Defined.

(** ** How the table changes under any request *)

Section Evolution.

Import Users.

Lemma evolves_refl (u : row) : evolves u u.
Proof.
  unfold evolves. repeat (split; [solve [reflexivity | intros H; exact H]|]).
  exists []. now rewrite app_nil_r.
Qed.

Lemma unique_same_row (t : table) (u v : row) :
  unique_emails t -> In u t -> In v t -> email u = email v -> u = v.
Proof.
  unfold unique_emails. induction t as [|a t IH]; intros Hnd Hu Hv He; [destruct Hu|].
  simpl in Hnd. inversion Hnd as [|x l Hnotin Hnd']; subst.
  destruct Hu as [->|Hu], Hv as [->|Hv].
  - reflexivity.
  - exfalso. apply Hnotin. rewrite He. now apply in_map.
  - exfalso. apply Hnotin. rewrite <- He. now apply in_map.
  - now apply IH.
Qed.

Lemma Forall2_evolves_map (f : row -> row) (t : table) :
  (forall u, In u t -> evolves u (f u)) -> Forall2 evolves t (map f t).
Proof.
  induction t as [|a t IH]; intros H; simpl; constructor.
  - apply H. now left.
  - apply IH. intros u Hu. apply H. now right.
Qed.

Lemma grows_kept (t t' : table) : Forall2 evolves t t' -> grows t t'.
Proof.
  intros H. exists t', []. rewrite app_nil_r. repeat split; [exact H|constructor].
Qed.

Lemma grows_refl (t : table) : grows t t.
Proof.
  apply grows_kept. rewrite <- (map_id t) at 2.
  apply Forall2_evolves_map. intros u _. apply evolves_refl.
Qed.

Lemma grows_update (env : Env) (k : nat) (change : row -> row)
    (p : row -> bool) (t : table) :
  (forall u, In u t -> p u = true -> evolves u (change u)) ->
  grows t (snd (update env k change p t)).
Proof.
  intros H. unfold update. destruct (unserved env k); cbn [snd]; [apply grows_refl|].
  apply grows_kept, Forall2_evolves_map. intros u Hu.
  destruct (p u) eqn:Ep; [now apply H|apply evolves_refl].
Qed.

Lemma evolves_set_otp (code : string) (u : row) : evolves u (set_otp code u).
Proof.
  unfold evolves. cbn. repeat (split; [solve [reflexivity | intros H; exact H]|]).
  exists []. now rewrite app_nil_r.
Qed.

Lemma evolves_set_verified (u : row) : evolves u (set_verified u).
Proof.
  unfold evolves. cbn. repeat (split; [solve [reflexivity | intros; reflexivity]|]).
  exists []. now rewrite app_nil_r.
Qed.

Lemma evolves_set_login (at_time : Z) (more : list entry) (u : row) :
  evolves u (set_login at_time (login_records u ++ more) u).
Proof.
  unfold evolves. cbn. repeat (split; [solve [reflexivity | intros H; exact H]|]).
  now exists more.
Qed.

Lemma evolves_set_login_records (more : list entry) (u : row) :
  evolves u (set_login_records (login_records u ++ more) u).
Proof.
  unfold evolves. cbn. repeat (split; [solve [reflexivity | intros H; exact H]|]).
  now exists more.
Qed.

Lemma just_registered_new_row (env : Env) (b : Register.body) (e code : string) :
  just_registered (new_row env b e code).
Proof. repeat split. Qed.

Lemma grows_insert (env : Env) (k : nat) (b : Register.body) (code : string)
    (t : table) :
  grows t (snd (insert env k b code t)).
Proof.
  unfold insert. destruct (unserved env k); [apply grows_refl|].
  destruct (Register.email b) as [e|]; [|apply grows_refl].
  destruct (existsb _ t); [apply grows_refl|]. cbn [snd].
  exists t, [new_row env b e code]. split; [reflexivity|]. split.
  - rewrite <- (map_id t) at 2. apply Forall2_evolves_map.
    intros u _. apply evolves_refl.
  - constructor; [apply just_registered_new_row|constructor].
Qed.

Lemma users_after_mail (env : Env) (w1 : World) (a : Js.field) (b : string)
    (c : Html) (r1 r2 : Reply) :
  users (snd match sendEmail env w1 a b c with
             | None => (r1, w1)
             | Some w2 => (r2, w2)
             end) = users w1.
Proof. unfold sendEmail. destruct (delivers env); reflexivity. Qed.

(** Whatever the request, the table afterwards is the table before with
    its rows later on, followed by the rows just registered. *)
Lemma after_grows (env : Env) (w : World) (req : Request) :
  unique_emails (users w) -> grows (users w) (users (after env w req)).
Proof.
  intros Hnd. destruct req as [b|e o|e|e o|e|e|]; unfold after.
  - unfold register.
    pose proof (grows_insert env 0 b (fresh_otp (random env)) (users w)) as Hg.
    destruct (insert env 0 b _ (users w)) as [[err|] t]; [apply grows_refl|].
    cbn [snd] in Hg. rewrite users_after_mail. exact Hg.
  - unfold verify_otp.
    destruct (select_single env 0 _ (users w)) as [[user|] [err|]];
      try apply grows_refl.
    pose proof (grows_update env 1 set_verified (by_email e) (users w)
                  (fun u _ _ => evolves_set_verified u)) as Hg.
    destruct (update env 1 _ _ (users w)) as [e1 t]. exact Hg.
  - unfold login.
    destruct (select_single env 0 _ (users w)) as [[user|] [err|]];
      try apply grows_refl.
    destruct (negb (email_verified user)); [apply grows_refl|].
    destruct (negb (approved_by_admin user)); [apply grows_refl|].
    pose proof (grows_update env 1 (set_otp (fresh_otp (random env)))
                  (by_email e) (users w)
                  (fun u _ _ => evolves_set_otp _ u)) as Hg.
    destruct (update env 1 _ _ (users w)) as [e1 t]. cbn [snd] in Hg.
    rewrite users_after_mail. exact Hg.
  - unfold verify_login.
    destruct (select_single env 0 _ (users w)) as [[user|] [err|]] eqn:Esel;
      try apply grows_refl.
    apply select_single_sound in Esel. destruct Esel as [Hin Hp].
    apply by_email_and_otp_true in Hp. destruct Hp as [He _].
    match goal with
    | |- context [update env 1 ?c ?p (users w)] =>
        assert (Hg : grows (users w) (snd (update env 1 c p (users w))));
        [|destruct (update env 1 c p (users w)) as [e1 t]]
    end.
    { apply grows_update. intros u Hu Hp. apply by_email_true in Hp.
      assert (u = user) by (apply (unique_same_row (users w)); congruence).
      subst u. apply evolves_set_login. }
    cbn [snd] in Hg. rewrite users_after_mail. exact Hg.
  - unfold logout.
    destruct (select_single env 0 _ (users w)) as [[user|] err] eqn:Esel;
      try apply grows_refl.
    apply select_single_sound in Esel. destruct Esel as [Hin Hp].
    apply by_email_true in Hp.
    match goal with
    | |- context [update env 1 ?c ?p (users w)] =>
        assert (Hg : grows (users w) (snd (update env 1 c p (users w))));
        [|destruct (update env 1 c p (users w)) as [e1 t]]
    end.
    { apply grows_update. intros u Hu Hp'. apply by_email_true in Hp'.
      assert (u = user) by (apply (unique_same_row (users w)); congruence).
      subst u. apply evolves_set_login_records. }
    cbn [snd] in Hg. rewrite users_after_mail. exact Hg.
  - unfold resend_otp.
    destruct (negb (Js.truthy e)); [apply grows_refl|].
    destruct (select_single env 0 _ (users w)) as [[user|] [err|]];
      try apply grows_refl.
    destruct (otp_verified user); [apply grows_refl|].
    pose proof (grows_update env 1 (set_otp (fresh_otp (random env)))
                  (by_email e) (users w)
                  (fun u _ _ => evolves_set_otp _ u)) as Hg.
    destruct (update env 1 _ _ (users w)) as [[e1|] t]; [apply grows_refl|].
    cbn [snd] in Hg. rewrite users_after_mail. exact Hg.
  - unfold get_users. destruct (select_all env 0 (users w)) as [data [err|]];
      apply grows_refl.
Qed.

Lemma after_keeps_unique (env : Env) (w : World) (req : Request) :
  unique_emails (users w) -> unique_emails (users (after env w req)).
Proof.
  intros Hnd.
  destruct (handlers_keep_unique_emails env w Hnd) as (H1 & H2 & H3 & H4 & H5 & H6).
  destruct req; unfold after; auto.
  unfold get_users. destruct (select_all env 0 (users w)) as [data [err|]]; exact Hnd.
Qed.

End Evolution.

Section Invariants.

Import Users.

Lemma Forall2_forward {A B : Type} (R : A -> B -> Prop) (l : list A) (l' : list B) (x : A) :
  Forall2 R l l' -> In x l -> exists y, In y l' /\ R x y.
Proof.
  induction 1 as [|a b l l' Hab _ IH]; intros Hin; [destruct Hin|].
  destruct Hin as [->|Hin].
  - exists b. split; [now left|exact Hab].
  - destruct (IH Hin) as (y & Hy & Hxy). exists y. split; [now right|exact Hxy].
Qed.

Lemma Forall2_backward {A B : Type} (R : A -> B -> Prop) (l : list A) (l' : list B) (y : B) :
  Forall2 R l l' -> In y l' -> exists x, In x l /\ R x y.
Proof.
  induction 1 as [|a b l l' Hab _ IH]; intros Hin; [destruct Hin|].
  destruct Hin as [->|Hin].
  - exists a. split; [now left|exact Hab].
  - destruct (IH Hin) as (x & Hx & Hxy). exists x. split; [now right|exact Hxy].
Qed.

Lemma grows_forward (t t' : table) (u : row) :
  grows t t' -> In u t -> exists u', In u' t' /\ evolves u u'.
Proof.
  intros (kept & added & -> & Hkept & _) Hin.
  destruct (Forall2_forward _ _ _ _ Hkept Hin) as (u' & Hu' & He).
  exists u'. split; [apply in_or_app; now left|exact He].
Qed.

Lemma grows_backward (t t' : table) (u' : row) :
  grows t t' -> In u' t' ->
  (exists u, In u t /\ evolves u u') \/ just_registered u'.
Proof.
  intros (kept & added & -> & Hkept & Hadded) Hin.
  apply in_app_or in Hin. destruct Hin as [Hin|Hin].
  - left. exact (Forall2_backward _ _ _ _ Hkept Hin).
  - right. rewrite Forall_forall in Hadded. now apply Hadded.
Qed.

Lemma office_unique : unique_emails (users Scenario.office).
Proof.
  unfold unique_emails. simpl. constructor.
  - intros [H|[]]. discriminate H.
  - constructor; [intros []|constructor].
Defined.

(** The three invariants of the tables that requests can build. *)
Lemma after_keeps_invariants (env : Env) (w : World) (req : Request) :
  unique_emails (users w) /\ flags_agree (users w) /\
    Forall (fun u => approved_by_admin u = false) (users w) ->
  unique_emails (users (after env w req)) /\
    flags_agree (users (after env w req)) /\
    Forall (fun u => approved_by_admin u = false) (users (after env w req)).
Proof.
  intros (Hnd & Hfl & Hap).
  pose proof (after_grows env w req Hnd) as Hg.
  split; [now apply after_keeps_unique|].
  unfold flags_agree in *. rewrite Forall_forall in Hfl, Hap.
  split; apply Forall_forall; intros u' Hu';
    destruct (grows_backward _ _ _ Hg Hu') as [(u & Hu & He)|Hnew].
  - apply He. now apply Hfl.
  - destruct Hnew as (H1 & H2 & _). congruence.
  - destruct He as (_ & _ & _ & _ & _ & _ & _ & _ & _ & _ & _ & _ & _ & _ & Ha & _).
    rewrite Ha. now apply Hap.
  - apply Hnew.
Qed.

Lemma run_keeps_invariants (trace : list (Env * Request)) :
  forall w,
    unique_emails (users w) /\ flags_agree (users w) /\
      Forall (fun u => approved_by_admin u = false) (users w) ->
    unique_emails (users (run trace w)) /\
      flags_agree (users (run trace w)) /\
      Forall (fun u => approved_by_admin u = false) (users (run trace w)).
Proof.
  induction trace as [|[env req] rest IH]; intros w H; [exact H|].
  cbn [run]. apply IH, after_keeps_invariants, H.
Qed.

Lemma initial_invariants :
  unique_emails (users initial) /\ flags_agree (users initial) /\
    Forall (fun u => approved_by_admin u = false) (users initial).
Proof. repeat split; constructor. Qed.

End Invariants.

(** X1. No request deletes an account, and none rewrites what
    identifies and describes it: whatever is handled, every row of the
    table is still there afterwards with its [id], [email],
    [created_at] and profile columns. *)
Theorem accounts_are_never_deleted (env : Env) (w : World) (req : Request)
    (u : Users.row) :
  Users.unique_emails (users w) ->
  In u (users w) ->
  exists u',
    In u' (users (after env w req)) /\
    Users.id u' = Users.id u /\
    Users.email u' = Users.email u /\
    Users.created_at u' = Users.created_at u /\
    Users.name u' = Users.name u /\
    Users.phone u' = Users.phone u /\
    Users.user_type u' = Users.user_type u /\
    Users.council_id u' = Users.council_id u /\
    Users.dob u' = Users.dob u /\
    Users.address u' = Users.address u /\
    Users.gender u' = Users.gender u /\
    Users.nationality u' = Users.nationality u /\
    Users.aadhaar u' = Users.aadhaar u /\
    Users.passport u' = Users.passport u /\
    Users.pan_card u' = Users.pan_card u.
Proof.
  intros Hnd Hin.
  destruct (grows_forward _ _ u (after_grows env w req Hnd) Hin) as (u' & Hu' & He).
  exists u'. split; [exact Hu'|].
  unfold evolves in He. intuition.
Qed.

Lemma accounts_are_never_deleted_witness :
  exists u',
    In u' (users (after Sample.env Scenario.office
                    (PostVerifyLogin (Some "c@x.com") (Some "123456")))) /\
    Users.id u' = "0b51d6aa" /\
    Users.email u' = "c@x.com" /\
    Users.created_at u' = 1699999990000 /\
    Users.name u' = Some "Carol" /\
    Users.phone u' = None /\
    Users.user_type u' = Some "admin" /\
    Users.council_id u' = None /\
    Users.dob u' = None /\
    Users.address u' = None /\
    Users.gender u' = None /\
    Users.nationality u' = None /\
    Users.aadhaar u' = None /\
    Users.passport u' = None /\
    Users.pan_card u' = None.
Proof.
  apply (accounts_are_never_deleted Sample.env Scenario.office
           (PostVerifyLogin (Some "c@x.com") (Some "123456")) Scenario.carol).
  - exact office_unique.
  - right; left; reflexivity.
Defined.

(** X2. Verification never reverts: whatever is handled, an account
    whose [otp_verified] or [email_verified] is true has it true
    afterwards. *)
Theorem verification_never_reverts (env : Env) (w : World) (req : Request)
    (u : Users.row) :
  Users.unique_emails (users w) ->
  In u (users w) ->
  exists u',
    In u' (users (after env w req)) /\
    Users.email u' = Users.email u /\
    (Users.otp_verified u = true -> Users.otp_verified u' = true) /\
    (Users.email_verified u = true -> Users.email_verified u' = true).
Proof.
  intros Hnd Hin.
  destruct (grows_forward _ _ u (after_grows env w req Hnd) Hin) as (u' & Hu' & He).
  exists u'. split; [exact Hu'|].
  unfold evolves in He. intuition.
Qed.

Lemma verification_never_reverts_witness :
  exists u',
    In u' (users (after Sample.env Scenario.office (PostResendOtp (Some "c@x.com")))) /\
    Users.email u' = "c@x.com" /\
    (Users.otp_verified Scenario.carol = true -> Users.otp_verified u' = true) /\
    (Users.email_verified Scenario.carol = true -> Users.email_verified u' = true).
Proof.
  apply (verification_never_reverts Sample.env Scenario.office
           (PostResendOtp (Some "c@x.com")) Scenario.carol).
  - exact office_unique.
  - right; left; reflexivity.
Defined.

(** X3. No handler grants approval: an account that is approved after
    a request was approved before it.  [approved_by_admin] is written
    by no [update], and [/register] leaves it to its default. *)
Theorem approval_is_never_granted (env : Env) (w : World) (req : Request)
    (u' : Users.row) :
  Users.unique_emails (users w) ->
  In u' (users (after env w req)) ->
  Users.approved_by_admin u' = true ->
  exists u,
    In u (users w) /\
    Users.email u = Users.email u' /\
    Users.approved_by_admin u = true.
Proof.
  intros Hnd Hin Ha.
  destruct (grows_backward _ _ u' (after_grows env w req Hnd) Hin)
    as [(u & Hu & He)|Hnew].
  - exists u. split; [exact Hu|]. unfold evolves in He.
    destruct He as (_ & He & _ & _ & _ & _ & _ & _ & _ & _ & _ & _ & _ & _ & Hap & _).
    split; congruence.
  - destruct Hnew as (_ & _ & Hf & _). congruence.
Qed.

Lemma approval_is_never_granted_witness :
  exists u,
    In u (users Scenario.office) /\
    Users.email u = "c@x.com" /\
    Users.approved_by_admin u = true.
Proof.
  apply (approval_is_never_granted Sample.env Scenario.office
           (PostLogin (Some "c@x.com"))
           (Users.set_otp (fresh_otp Sample.half) Scenario.carol)).
  - exact office_unique.
  - right; left; reflexivity.
  - reflexivity.
Defined.

(** X4. The audit trail only grows, whatever is handled: the
    [login_records] an account had are the first entries of those it
    has afterwards. *)
Theorem login_records_only_grow (env : Env) (w : World) (req : Request)
    (u : Users.row) :
  Users.unique_emails (users w) ->
  In u (users w) ->
  exists u' more,
    In u' (users (after env w req)) /\
    Users.email u' = Users.email u /\
    Users.login_records u' = Users.login_records u ++ more.
Proof.
  intros Hnd Hin.
  destruct (grows_forward _ _ u (after_grows env w req Hnd) Hin) as (u' & Hu' & He).
  unfold evolves in He.
  destruct He as (_ & He & _ & _ & _ & _ & _ & _ & _ & _ & _ & _ & _ & _ & _ & _ & _ & _ & more & Hm).
  exists u', more. repeat split; assumption.
Qed.

Lemma login_records_only_grow_witness :
  exists u' more,
    In u' (users (after Sample.env Scenario.office (PostLogout (Some "c@x.com")))) /\
    Users.email u' = "c@x.com" /\
    Users.login_records u' = Users.login_records Scenario.carol ++ more.
Proof.
  apply (login_records_only_grow Sample.env Scenario.office
           (PostLogout (Some "c@x.com")) Scenario.carol).
  - exact office_unique.
  - right; left; reflexivity.
Defined.

(** X5. The two verification flags are only ever written together: if
    [email_verified] and [otp_verified] agree on every row, they agree
    on every row after any request. *)
Theorem verification_flags_stay_equal (env : Env) (w : World) (req : Request) :
  Users.unique_emails (users w) ->
  flags_agree (users w) ->
  flags_agree (users (after env w req)).
Proof.
  intros Hnd Hfl.
  pose proof (after_grows env w req Hnd) as Hg.
  unfold flags_agree in *. rewrite Forall_forall in Hfl.
  apply Forall_forall. intros u' Hu'.
  destruct (grows_backward _ _ _ Hg Hu') as [(u & Hu & He)|Hnew].
  - apply He. now apply Hfl.
  - destruct Hnew as (H1 & H2 & _). congruence.
Qed.

Lemma verification_flags_stay_equal_witness :
  flags_agree (users (after Sample.env Scenario.office
                        (PostVerifyOtp (Some "a@x.com") (Some "123456")))).
Proof.
  apply (verification_flags_stay_equal Sample.env Scenario.office
           (PostVerifyOtp (Some "a@x.com") (Some "123456"))).
  - exact office_unique.
  - repeat constructor.
Defined.

(** X6. Starting from the empty table, whatever requests are handled
    and whatever the repository and the notifier do, emails stay
    unique, the two verification flags agree on every account, and no
    account is approved. *)
Theorem reachable_tables (trace : list (Env * Request)) :
  Users.unique_emails (users (run trace initial)) /\
  flags_agree (users (run trace initial)) /\
  Forall (fun u => Users.approved_by_admin u = false) (users (run trace initial)).
Proof.
  apply run_keeps_invariants, initial_invariants.
Qed.

(** X7. Starting from the empty table, no sequence of requests gets a
    login OTP issued: every [/login] is answered with a client error
    and changes nothing, approval being granted by no handler. *)
Theorem login_is_never_granted (trace : list (Env * Request)) (env : Env)
    (email : Js.field) :
  client_error (fst (login env (run trace initial) email)) = true /\
  snd (login env (run trace initial) email) = run trace initial.
Proof.
  destruct (run_keeps_invariants trace initial initial_invariants) as (_ & _ & Hap).
  set (w := run trace initial) in *.
  unfold login.
  destruct (select_single env 0 _ (users w)) as [[user|] [err|]] eqn:Esel;
    try (split; reflexivity).
  apply select_single_sound in Esel. destruct Esel as [Hin _].
  rewrite Forall_forall in Hap. rewrite (Hap user Hin).
  destruct (negb (Users.email_verified user)); split; reflexivity.
Qed.

(** ** More on [/register] *)








(** ** More on [/login] and [/verify-login] *)

Lemma split_unique (pre post : Users.table) (u : Users.row) :
  Users.unique_emails (pre ++ u :: post) ->
  In u (pre ++ u :: post) /\
  (forall v, In v pre -> Users.email v <> Users.email u) /\
  (forall v, In v post -> Users.email v <> Users.email u).
Proof.
  unfold Users.unique_emails. intros Hnd.
  split; [apply in_or_app; right; now left|].
  rewrite map_app in Hnd. simpl in Hnd.
  apply NoDup_remove_2 in Hnd. rewrite in_app_iff in Hnd.
  split; intros v Hv Hev; apply Hnd; [left|right];
    rewrite <- Hev; now apply in_map.
Qed.

Lemma login_path (env : Env) (w : World) (pre post : Users.table) (u : Users.row) :
  users w = pre ++ u :: post ->
  Users.unique_emails (users w) ->
  Users.email_verified u = true ->
  Users.approved_by_admin u = true ->
  unserved env 0 = false ->
  unserved env 1 = false ->
  delivers env = true ->
  login env w (Some (Users.email u)) =
    (message "OTP sent for login.",
     {| users := pre ++ Users.set_otp (fresh_otp (random env)) u :: post;
        outbox := outbox w ++ [{| to := Some (Users.email u);
                                  subject := "Login OTP";
                                  html := LoginOtp (Users.name u)
                                            (fresh_otp (random env)) |}] |}).
Proof.
  intros Ht Hnd Hv Ha Hsel Hupd Hmail.
  assert (Hs := Hnd). rewrite Ht in Hs.
  destruct (split_unique pre post u Hs) as (Hin & Hpre & Hpost).
  rewrite <- Ht in Hin.
  unfold login.
  rewrite (select_by_email env _ u (Some (Users.email u)) Hnd Hin Logic.eq_refl Hsel).
  rewrite Hv, Ha, Ht. cbn [negb].
  rewrite (update_unique env 1 _ (Some (Users.email u)) pre post u Hupd
             Logic.eq_refl Hpre Hpost).
  unfold sendEmail. rewrite Hmail. reflexivity.
Qed.

(** X11. [/login] for a verified and approved account overwrites its
    stored OTP with the one it has drawn, changes nothing else in the
    table, mails that OTP to the email and answers 200. *)
Theorem login_issues_fresh_otp (env : Env) (w : World) (u : Users.row) :
  Users.unique_emails (users w) ->
  In u (users w) ->
  Users.email_verified u = true ->
  Users.approved_by_admin u = true ->
  unserved env 0 = false ->
  unserved env 1 = false ->
  delivers env = true ->
  exists pre post,
    users w = pre ++ u :: post /\
    login env w (Some (Users.email u)) =
      (message "OTP sent for login.",
       {| users := pre ++ Users.set_otp (fresh_otp (random env)) u :: post;
          outbox := outbox w ++ [{| to := Some (Users.email u);
                                    subject := "Login OTP";
                                    html := LoginOtp (Users.name u)
                                              (fresh_otp (random env)) |}] |}) /\
    Users.otp (Users.set_otp (fresh_otp (random env)) u)
      = Some (fresh_otp (random env)).
Proof.
  intros Hnd Hin Hv Ha Hsel Hupd Hmail.
  destruct (unique_split _ _ Hnd Hin) as (pre & post & Ht & _).
  exists pre, post. split; [exact Ht|]. split; [|reflexivity].
  exact (login_path env w pre post u Ht Hnd Hv Ha Hsel Hupd Hmail).
Qed.

Lemma login_issues_fresh_otp_witness :
  exists pre post,
    users Scenario.office = pre ++ Scenario.carol :: post /\
    login Scenario.second Scenario.office (Some "c@x.com") =
      (message "OTP sent for login.",
       {| users := pre ++ Users.set_otp "999999" Scenario.carol :: post;
          outbox := [{| to := Some "c@x.com";
                        subject := "Login OTP";
                        html := LoginOtp (Some "Carol") "999999" |}] |}) /\
    Users.otp (Users.set_otp (fresh_otp (random Scenario.second)) Scenario.carol)
      = Some "999999".
Proof.
  apply (login_issues_fresh_otp Scenario.second Scenario.office Scenario.carol).
  - exact office_unique.
  - right; left; reflexivity.
  - reflexivity.
  - reflexivity.
  - reflexivity.
  - reflexivity.
  - reflexivity.
Defined.

Lemma unique_replaced (pre post : Users.table) (u u' : Users.row) :
  Users.email u' = Users.email u ->
  Users.unique_emails (pre ++ u :: post) ->
  Users.unique_emails (pre ++ u' :: post).
Proof.
  unfold Users.unique_emails. intros He. rewrite !map_app. cbn [map].
  now rewrite He.
Qed.

(** X12. The OTP that [/login] has issued is the one [/verify-login]
    then accepts, and the OTP that was stored before is refused from
    then on unless it is the same text: issuing overwrites. *)
Theorem login_then_verify_login (env env' : Env) (w : World) (u : Users.row) :
  Users.unique_emails (users w) ->
  In u (users w) ->
  Users.email_verified u = true ->
  Users.approved_by_admin u = true ->
  unserved env 0 = false ->
  unserved env 1 = false ->
  delivers env = true ->
  unserved env' 0 = false ->
  delivers env' = true ->
  succeeded (fst (verify_login env' (snd (login env w (Some (Users.email u))))
                    (Some (Users.email u)) (Some (fresh_otp (random env))))) = true /\
  (forall old, old <> fresh_otp (random env) ->
     verify_login env' (snd (login env w (Some (Users.email u))))
       (Some (Users.email u)) (Some old)
     = (error 400 "Invalid OTP", snd (login env w (Some (Users.email u))))).
Proof.
  intros Hnd Hin Hv Ha Hsel Hupd Hmail Hsel' Hmail'.
  destruct (unique_split _ _ Hnd Hin) as (pre & post & Ht & _).
  rewrite (login_path env w pre post u Ht Hnd Hv Ha Hsel Hupd Hmail).
  cbn [snd].
  set (u1 := Users.set_otp (fresh_otp (random env)) u).
  assert (Hnd1 : Users.unique_emails (pre ++ u1 :: post)).
  { apply (unique_replaced pre post u u1 Logic.eq_refl). now rewrite <- Ht. }
  assert (Hin1 : In u1 (pre ++ u1 :: post)) by (apply in_or_app; right; now left).
  split.
  - unfold verify_login. cbn [users].
    pose proof (select_by_email_and_otp env' _ u1 (fresh_otp (random env))
                  Hnd1 Hin1 Logic.eq_refl Hsel') as Es.
    change (Users.email u1) with (Users.email u) in Es. rewrite Es.
    destruct (update env' 1 _ _ _) as [e1 t1].
    unfold sendEmail. rewrite Hmail'. reflexivity.
  - intros old Hold. unfold verify_login, select_single. cbn [users].
    rewrite Hsel'.
    rewrite (filter_unique _ _ u1 Hnd1 Hin1).
    + assert (Hp : by_email_and_otp (Some (Users.email u)) (Some old) u1 = false).
      { destruct (by_email_and_otp (Some (Users.email u)) (Some old) u1) eqn:E;
          [|reflexivity].
        apply by_email_and_otp_true in E. destruct E as [_ E].
        cbn in E. congruence. }
      rewrite Hp. reflexivity.
    + intros v Hv'. apply by_email_and_otp_true in Hv'. now destruct Hv'.
Qed.

Lemma login_then_verify_login_witness :
  succeeded (fst (verify_login Sample.env
                    (snd (login Scenario.second Scenario.office (Some "c@x.com")))
                    (Some "c@x.com") (Some "999999"))) = true /\
  (forall old, old <> "999999" ->
     verify_login Sample.env
       (snd (login Scenario.second Scenario.office (Some "c@x.com")))
       (Some "c@x.com") (Some old)
     = (error 400 "Invalid OTP",
        snd (login Scenario.second Scenario.office (Some "c@x.com")))).
Proof.
  apply (login_then_verify_login Scenario.second Sample.env Scenario.office
           Scenario.carol).
  - exact office_unique.
  - right; left; reflexivity.
  - reflexivity.
  - reflexivity.
  - reflexivity.
  - reflexivity.
  - reflexivity.
  - reflexivity.
  - reflexivity.
Defined.

Lemma verify_login_path (env : Env) (w : World) (pre post : Users.table)
    (u : Users.row) (code : string) :
  users w = pre ++ u :: post ->
  Users.unique_emails (users w) ->
  Users.otp u = Some code ->
  unserved env 0 = false ->
  unserved env 1 = false ->
  delivers env = true ->
  succeeded (fst (verify_login env w (Some (Users.email u)) (Some code))) = true /\
  snd (verify_login env w (Some (Users.email u)) (Some code)) =
    {| users :=
         pre ++ Users.set_login (date env 0)
                  (Users.login_records u
                     ++ [{| Users.action := "login"; Users.time := date env 1 |}])
                  u :: post;
       outbox :=
         outbox w ++ [{| to := Some (Users.email u);
                         subject := "Login Successful";
                         html := LoginSuccessful (Users.name u) (date env 2) |}] |}.
Proof.
  intros Ht Hnd Hotp Hsel Hupd Hmail.
  assert (Hs := Hnd). rewrite Ht in Hs.
  destruct (split_unique pre post u Hs) as (Hin & Hpre & Hpost).
  rewrite <- Ht in Hin.
  unfold verify_login.
  rewrite (select_by_email_and_otp env _ u code Hnd Hin Hotp Hsel).
  rewrite Ht.
  rewrite (update_unique env 1 _ (Some (Users.email u)) pre post u Hupd
             Logic.eq_refl Hpre Hpost).
  unfold sendEmail. rewrite Hmail. split; reflexivity.
Qed.

(** X13. [/verify-login] does not consume the OTP: the request that
    has logged in logs in again when repeated, and the account then
    holds two login entries after those it had, the OTP still stored. *)
Theorem verify_login_otp_is_reusable (env env' : Env) (w : World)
    (u : Users.row) (code : string) :
  Users.unique_emails (users w) ->
  In u (users w) ->
  Users.otp u = Some code ->
  unserved env 0 = false -> unserved env 1 = false -> delivers env = true ->
  unserved env' 0 = false -> unserved env' 1 = false -> delivers env' = true ->
  exists pre post u2,
    users w = pre ++ u :: post /\
    succeeded
      (fst (verify_login env'
              (snd (verify_login env w (Some (Users.email u)) (Some code)))
              (Some (Users.email u)) (Some code))) = true /\
    users
      (snd (verify_login env'
              (snd (verify_login env w (Some (Users.email u)) (Some code)))
              (Some (Users.email u)) (Some code))) = pre ++ u2 :: post /\
    Users.otp u2 = Some code /\
    Users.login_records u2 =
      Users.login_records u
        ++ [{| Users.action := "login"; Users.time := date env 1 |};
            {| Users.action := "login"; Users.time := date env' 1 |}].
Proof.
  intros Hnd Hin Hotp Hsel Hupd Hmail Hsel' Hupd' Hmail'.
  destruct (unique_split _ _ Hnd Hin) as (pre & post & Ht & _).
  destruct (verify_login_path env w pre post u code Ht Hnd Hotp Hsel Hupd Hmail)
    as (_ & ->).
  set (u1 := Users.set_login (date env 0)
               (Users.login_records u
                  ++ [{| Users.action := "login"; Users.time := date env 1 |}]) u).
  set (w1 := {| users := pre ++ u1 :: post; outbox := _ |}).
  assert (Hnd1 : Users.unique_emails (users w1)).
  { apply (unique_replaced pre post u u1 Logic.eq_refl). now rewrite <- Ht. }
  destruct (verify_login_path env' w1 pre post u1 code Logic.eq_refl Hnd1 Hotp
              Hsel' Hupd' Hmail') as (Hok & Hw2).
  change (Users.email u1) with (Users.email u) in Hok, Hw2.
  exists pre, post.
  exists (Users.set_login (date env' 0)
            (Users.login_records u1
               ++ [{| Users.action := "login"; Users.time := date env' 1 |}]) u1).
  split; [exact Ht|]. split; [exact Hok|].
  split; [rewrite Hw2; reflexivity|]. split; [exact Hotp|].
  cbn [Users.set_login Users.login_records u1]. now rewrite <- app_assoc.
Qed.

Lemma verify_login_otp_is_reusable_witness :
  exists pre post u2,
    users Scenario.office = pre ++ Scenario.carol :: post /\
    succeeded
      (fst (verify_login Scenario.second
              (snd (verify_login Sample.env Scenario.office
                      (Some "c@x.com") (Some "123456")))
              (Some "c@x.com") (Some "123456"))) = true /\
    users
      (snd (verify_login Scenario.second
              (snd (verify_login Sample.env Scenario.office
                      (Some "c@x.com") (Some "123456")))
              (Some "c@x.com") (Some "123456"))) = pre ++ u2 :: post /\
    Users.otp u2 = Some "123456" /\
    Users.login_records u2 =
      [{| Users.action := "login"; Users.time := 1700000000001 |};
       {| Users.action := "login"; Users.time := 1700000000001 |}].
Proof.
  apply (verify_login_otp_is_reusable Sample.env Scenario.second Scenario.office
           Scenario.carol "123456").
  - exact office_unique.
  - right; left; reflexivity.
  - reflexivity.
  - reflexivity.
  - reflexivity.
  - reflexivity.
  - reflexivity.
  - reflexivity.
  - reflexivity.
Defined.

(** ** Errors and the state *)

(** X14. A reply with a status from 400 to 499 comes with no change:
    whenever a handler answers a client error, no row has been written
    and no mail sent. *)
Theorem client_errors_change_nothing (env : Env) (w : World) (req : Request)
    (r : Reply) :
  answer env w req = Some r ->
  client_error r = true ->
  after env w req = w.
Proof.
  destruct req as [b|e o|e|e o|e|e|]; unfold answer, after.
  - unfold register. destruct (insert env 0 b _ (users w)) as [[err|] t];
      [reflexivity|].
    unfold sendEmail. destruct (delivers env);
      intros H; injection H as <-; discriminate.
  - unfold verify_otp.
    destruct (select_single env 0 _ (users w)) as [[user|] [err|]];
      try reflexivity.
    destruct (update env 1 _ _ (users w)).
    intros H; injection H as <-; discriminate.
  - unfold login.
    destruct (select_single env 0 _ (users w)) as [[user|] [err|]];
      try reflexivity.
    destruct (negb (Users.email_verified user)); [reflexivity|].
    destruct (negb (Users.approved_by_admin user)); [reflexivity|].
    destruct (update env 1 _ _ (users w)).
    unfold sendEmail. destruct (delivers env);
      intros H; injection H as <-; discriminate.
  - unfold verify_login.
    destruct (select_single env 0 _ (users w)) as [[user|] [err|]];
      try reflexivity.
    destruct (update env 1 _ _ (users w)).
    unfold sendEmail. destruct (delivers env);
      intros H; injection H as <-; discriminate.
  - unfold logout.
    destruct (select_single env 0 _ (users w)) as [[user|] err];
      try reflexivity.
    destruct (update env 1 _ _ (users w)).
    unfold sendEmail. destruct (delivers env);
      intros H; injection H as <-; discriminate.
  - unfold resend_otp.
    destruct (negb (Js.truthy e)); [reflexivity|].
    destruct (select_single env 0 _ (users w)) as [[user|] [err|]];
      try reflexivity.
    destruct (Users.otp_verified user); [reflexivity|].
    destruct (update env 1 _ _ (users w)) as [[e1|] t]; [reflexivity|].
    unfold sendEmail. destruct (delivers env);
      intros H; injection H as <-; discriminate.
  - unfold get_users. destruct (select_all env 0 (users w)) as [data [err|]];
      reflexivity.
Qed.

Lemma client_errors_change_nothing_witness :
  after Sample.env Scenario.office (PostLogin (Some "a@x.com")) = Scenario.office.
Proof.
  apply (client_errors_change_nothing Sample.env Scenario.office
           (PostLogin (Some "a@x.com")) (error 403 "Email not verified")).
  - reflexivity.
  - reflexivity.
Defined.

(** X15. When the repository does not serve the lookup, each handler
    answers as for a miss: "Invalid OTP", "User not found" or "User with
    this email not found"; [/register] and [GET /users] forward the
    error of the repository with status 400.  Nothing is changed. *)
Theorem lookup_outage_is_answered_as_a_miss (env : Env) (w : World) :
  unserved env 0 = true ->
  (forall b, register env w b = (Json 400 [("error", Message Unserved)], w)) /\
  (forall e o, verify_otp env w e o = (error 400 "Invalid OTP", w)) /\
  (forall e, login env w e = (error 400 "User not found", w)) /\
  (forall e o, verify_login env w e o = (error 400 "Invalid OTP", w)) /\
  (forall e, logout env w e = (error 400 "User not found", w)) /\
  (forall e, Js.truthy e = true ->
     resend_otp env w e = (error 404 "User with this email not found", w)) /\
  get_users env w = (Refused (Json 400 [("error", Message Unserved)]), w).
Proof.
  intros H.
  repeat split; intros;
    unfold register, insert, verify_otp, login, verify_login, logout, resend_otp,
      get_users, select_single, select_all;
    rewrite ?H; try reflexivity.
  match goal with Ht : Js.truthy _ = true |- _ => rewrite Ht end. reflexivity.
Qed.

Lemma lookup_outage_is_answered_as_a_miss_witness :
  (forall b, register Scenario.outage Scenario.office b
             = (Json 400 [("error", Message Unserved)], Scenario.office)) /\
  (forall e o, verify_otp Scenario.outage Scenario.office e o
               = (error 400 "Invalid OTP", Scenario.office)) /\
  (forall e, login Scenario.outage Scenario.office e
             = (error 400 "User not found", Scenario.office)) /\
  (forall e o, verify_login Scenario.outage Scenario.office e o
               = (error 400 "Invalid OTP", Scenario.office)) /\
  (forall e, logout Scenario.outage Scenario.office e
             = (error 400 "User not found", Scenario.office)) /\
  (forall e, Js.truthy e = true ->
     resend_otp Scenario.outage Scenario.office e
     = (error 404 "User with this email not found", Scenario.office)) /\
  get_users Scenario.outage Scenario.office
    = (Refused (Json 400 [("error", Message Unserved)]), Scenario.office).
Proof.
  apply (lookup_outage_is_answered_as_a_miss Scenario.outage Scenario.office).
  reflexivity.
Defined.

(** X16. The handlers other than [/resend-otp] do not look at what
    [update] returns: when the repository serves the lookup and not the
    update, [/verify-otp], [/verify-login], [/logout] and [/login]
    still answer 200, the table being as it was. *)
Theorem update_failure_goes_unnoticed (env : Env) (w : World) (u : Users.row)
    (code : string) :
  Users.unique_emails (users w) ->
  In u (users w) ->
  Users.otp u = Some code ->
  unserved env 0 = false ->
  unserved env 1 = true ->
  delivers env = true ->
  verify_otp env w (Some (Users.email u)) (Some code)
    = (message "Email verified successfully.", w) /\
  (succeeded (fst (verify_login env w (Some (Users.email u)) (Some code))) = true /\
   users (snd (verify_login env w (Some (Users.email u)) (Some code))) = users w) /\
  (fst (logout env w (Some (Users.email u))) = message "Logged out successfully." /\
   users (snd (logout env w (Some (Users.email u)))) = users w) /\
  (Users.email_verified u = true -> Users.approved_by_admin u = true ->
   fst (login env w (Some (Users.email u))) = message "OTP sent for login." /\
   users (snd (login env w (Some (Users.email u)))) = users w).
Proof.
  intros Hnd Hin Hotp Hsel Hupd Hmail.
  pose proof (select_by_email_and_otp env _ u code Hnd Hin Hotp Hsel) as E2.
  pose proof (select_by_email env _ u (Some (Users.email u)) Hnd Hin
                Logic.eq_refl Hsel) as E1.
  repeat split.
  - unfold verify_otp. rewrite E2. unfold update. rewrite Hupd.
    destruct w; reflexivity.
  - unfold verify_login. rewrite E2. unfold update. rewrite Hupd.
    unfold sendEmail. rewrite Hmail. reflexivity.
  - unfold verify_login. rewrite E2. unfold update. rewrite Hupd.
    unfold sendEmail. rewrite Hmail. reflexivity.
  - unfold logout. rewrite E1. unfold update. rewrite Hupd.
    unfold sendEmail. rewrite Hmail. reflexivity.
  - unfold logout. rewrite E1. unfold update. rewrite Hupd.
    unfold sendEmail. rewrite Hmail. reflexivity.
  - unfold login. rewrite E1, H, H0. unfold update. rewrite Hupd.
    unfold sendEmail. rewrite Hmail. reflexivity.
  - unfold login. rewrite E1, H, H0. unfold update. rewrite Hupd.
    unfold sendEmail. rewrite Hmail. reflexivity.
Qed.

Lemma update_failure_goes_unnoticed_witness :
  verify_otp Scenario.update_unserved Scenario.office (Some "c@x.com") (Some "123456")
    = (message "Email verified successfully.", Scenario.office) /\
  (succeeded (fst (verify_login Scenario.update_unserved Scenario.office
                     (Some "c@x.com") (Some "123456"))) = true /\
   users (snd (verify_login Scenario.update_unserved Scenario.office
                 (Some "c@x.com") (Some "123456"))) = users Scenario.office) /\
  (fst (logout Scenario.update_unserved Scenario.office (Some "c@x.com"))
     = message "Logged out successfully." /\
   users (snd (logout Scenario.update_unserved Scenario.office (Some "c@x.com")))
     = users Scenario.office) /\
  (Users.email_verified Scenario.carol = true ->
   Users.approved_by_admin Scenario.carol = true ->
   fst (login Scenario.update_unserved Scenario.office (Some "c@x.com"))
     = message "OTP sent for login." /\
   users (snd (login Scenario.update_unserved Scenario.office (Some "c@x.com")))
     = users Scenario.office).
Proof.
  apply (update_failure_goes_unnoticed Scenario.update_unserved Scenario.office
           Scenario.carol "123456").
  - exact office_unique.
  - right; left; reflexivity.
  - reflexivity.
  - reflexivity.
  - reflexivity.
  - reflexivity.
Defined.

(** ** More on [/logout] *)

(** X17. [/logout] asks for no session: for any account, logged in or
    not, it appends the logout entry, leaves [last_login_at], the OTP
    and the flags of the account and every other row as they were,
    sends the logout mail and answers 200. *)
Theorem logout_needs_no_session (env : Env) (w : World) (u : Users.row) :
  Users.unique_emails (users w) ->
  In u (users w) ->
  unserved env 0 = false ->
  unserved env 1 = false ->
  delivers env = true ->
  exists pre post u',
    users w = pre ++ u :: post /\
    logout env w (Some (Users.email u)) =
      (message "Logged out successfully.",
       {| users := pre ++ u' :: post;
          outbox := outbox w ++ [{| to := Some (Users.email u);
                                    subject := "Logout Notification";
                                    html := LogoutNotification (Users.name u)
                                              (date env 1) |}] |}) /\
    Users.login_records u' =
      Users.login_records u
        ++ [{| Users.action := "logout"; Users.time := date env 0 |}] /\
    Users.last_login_at u' = Users.last_login_at u /\
    Users.otp u' = Users.otp u /\
    Users.otp_verified u' = Users.otp_verified u /\
    Users.email_verified u' = Users.email_verified u /\
    Users.approved_by_admin u' = Users.approved_by_admin u.
Proof.
  intros Hnd Hin Hsel Hupd Hmail.
  destruct (unique_split _ _ Hnd Hin) as (pre & post & Ht & Hpre & Hpost).
  exists pre, post.
  exists (Users.set_login_records
            (Users.login_records u
               ++ [{| Users.action := "logout"; Users.time := date env 0 |}]) u).
  split; [exact Ht|]. split; [|repeat split].
  unfold logout.
  rewrite (select_by_email env _ u (Some (Users.email u)) Hnd Hin Logic.eq_refl Hsel).
  rewrite Ht.
  rewrite (update_unique env 1 _ (Some (Users.email u)) pre post u Hupd
             Logic.eq_refl Hpre Hpost).
  unfold sendEmail. rewrite Hmail. reflexivity.
Qed.

Lemma logout_needs_no_session_witness :
  exists pre post u',
    users Scenario.office = pre ++ Sample.alice :: post /\
    logout Sample.env Scenario.office (Some "a@x.com") =
      (message "Logged out successfully.",
       {| users := pre ++ u' :: post;
          outbox := [{| to := Some "a@x.com";
                        subject := "Logout Notification";
                        html := LogoutNotification (Some "Alice") 1700000000001 |}] |}) /\
    Users.login_records u' =
      [{| Users.action := "logout"; Users.time := 1700000000000 |}] /\
    Users.last_login_at u' = None /\
    Users.otp u' = Some "123456" /\
    Users.otp_verified u' = false /\
    Users.email_verified u' = false /\
    Users.approved_by_admin u' = false.
Proof.
  apply (logout_needs_no_session Sample.env Scenario.office Sample.alice).
  - exact office_unique.
  - left; reflexivity.
  - reflexivity.
  - reflexivity.
  - reflexivity.
Defined.

(** ** More on [/resend-otp] *)

Lemma truthy_nonempty (s : string) : s <> "" -> Js.truthy (Some s) = true.
Proof.
  intros H. simpl. destruct (String.eqb_spec s ""); [contradiction|reflexivity].
Qed.

Lemma resend_otp_path (env : Env) (w : World) (pre post : Users.table)
    (u : Users.row) :
  users w = pre ++ u :: post ->
  Users.unique_emails (users w) ->
  Users.email u <> "" ->
  Users.otp_verified u = false ->
  unserved env 0 = false ->
  unserved env 1 = false ->
  delivers env = true ->
  resend_otp env w (Some (Users.email u)) =
    (message "OTP resent successfully",
     {| users := pre ++ Users.set_otp (fresh_otp (random env)) u :: post;
        outbox := outbox w ++ [{| to := Some (Users.email u);
                                  subject := "Resend OTP - Email Verification";
                                  html := ResendOtp (Users.name u)
                                            (fresh_otp (random env)) |}] |}).
Proof.
  intros Ht Hnd Hne Hv Hsel Hupd Hmail.
  assert (Hs := Hnd). rewrite Ht in Hs.
  destruct (split_unique pre post u Hs) as (Hin & Hpre & Hpost).
  rewrite <- Ht in Hin.
  unfold resend_otp. rewrite (truthy_nonempty _ Hne). cbn [negb].
  rewrite (select_by_email env _ u (Some (Users.email u)) Hnd Hin Logic.eq_refl Hsel).
  rewrite Hv, Ht.
  rewrite (update_unique env 1 _ (Some (Users.email u)) pre post u Hupd
             Logic.eq_refl Hpre Hpost).
  unfold sendEmail. rewrite Hmail. reflexivity.
Qed.

(** X18. [/resend-otp] for an unverified account overwrites its stored
    OTP with the one it has drawn, changes nothing else in the table,
    mails that OTP to the email and answers 200. *)
Theorem resend_otp_issues_fresh_otp (env : Env) (w : World) (u : Users.row) :
  Users.unique_emails (users w) ->
  In u (users w) ->
  Users.email u <> "" ->
  Users.otp_verified u = false ->
  unserved env 0 = false ->
  unserved env 1 = false ->
  delivers env = true ->
  exists pre post,
    users w = pre ++ u :: post /\
    resend_otp env w (Some (Users.email u)) =
      (message "OTP resent successfully",
       {| users := pre ++ Users.set_otp (fresh_otp (random env)) u :: post;
          outbox := outbox w ++ [{| to := Some (Users.email u);
                                    subject := "Resend OTP - Email Verification";
                                    html := ResendOtp (Users.name u)
                                              (fresh_otp (random env)) |}] |}) /\
    Users.otp (Users.set_otp (fresh_otp (random env)) u)
      = Some (fresh_otp (random env)).
Proof.
  intros Hnd Hin Hne Hv Hsel Hupd Hmail.
  destruct (unique_split _ _ Hnd Hin) as (pre & post & Ht & _).
  exists pre, post. split; [exact Ht|]. split; [|reflexivity].
  exact (resend_otp_path env w pre post u Ht Hnd Hne Hv Hsel Hupd Hmail).
Qed.

Lemma resend_otp_issues_fresh_otp_witness :
  exists pre post,
    users Scenario.office = pre ++ Sample.alice :: post /\
    resend_otp Scenario.second Scenario.office (Some "a@x.com") =
      (message "OTP resent successfully",
       {| users := pre ++ Users.set_otp "999999" Sample.alice :: post;
          outbox := [{| to := Some "a@x.com";
                        subject := "Resend OTP - Email Verification";
                        html := ResendOtp (Some "Alice") "999999" |}] |}) /\
    Users.otp (Users.set_otp (fresh_otp (random Scenario.second)) Sample.alice)
      = Some "999999".
Proof.
  apply (resend_otp_issues_fresh_otp Scenario.second Scenario.office Sample.alice).
  - exact office_unique.
  - left; reflexivity.
  - discriminate.
  - reflexivity.
  - reflexivity.
  - reflexivity.
  - reflexivity.
Defined.

(** X19. The OTP that [/resend-otp] has issued is the one [/verify-otp]
    then accepts, verifying the account; the OTP stored before is
    refused from then on unless it is the same text. *)
Theorem resend_otp_then_verify_otp (env env' : Env) (w : World) (u : Users.row) :
  Users.unique_emails (users w) ->
  In u (users w) ->
  Users.email u <> "" ->
  Users.otp_verified u = false ->
  unserved env 0 = false ->
  unserved env 1 = false ->
  delivers env = true ->
  unserved env' 0 = false ->
  unserved env' 1 = false ->
  exists pre post u',
    users w = pre ++ u :: post /\
    verify_otp env' (snd (resend_otp env w (Some (Users.email u))))
      (Some (Users.email u)) (Some (fresh_otp (random env)))
    = (message "Email verified successfully.",
       {| users := pre ++ u' :: post;
          outbox := outbox (snd (resend_otp env w (Some (Users.email u)))) |}) /\
    Users.email_verified u' = true /\
    Users.otp_verified u' = true /\
    (forall old, old <> fresh_otp (random env) ->
       verify_otp env' (snd (resend_otp env w (Some (Users.email u))))
         (Some (Users.email u)) (Some old)
       = (error 400 "Invalid OTP", snd (resend_otp env w (Some (Users.email u))))).
Proof.
  intros Hnd Hin Hne Hv Hsel Hupd Hmail Hsel' Hupd'.
  destruct (unique_split _ _ Hnd Hin) as (pre & post & Ht & _).
  rewrite (resend_otp_path env w pre post u Ht Hnd Hne Hv Hsel Hupd Hmail).
  cbn [snd outbox].
  set (u1 := Users.set_otp (fresh_otp (random env)) u).
  set (w1 := {| users := pre ++ u1 :: post; outbox := _ |}).
  assert (Hnd1 : Users.unique_emails (users w1)).
  { apply (unique_replaced pre post u u1 Logic.eq_refl). now rewrite <- Ht. }
  destruct (split_unique pre post u1 Hnd1) as (Hin1 & Hpre1 & Hpost1).
  exists pre, post, (Users.set_verified u1).
  split; [exact Ht|]. split; [|split; [reflexivity|split; [reflexivity|]]].
  - unfold verify_otp.
    pose proof (select_by_email_and_otp env' _ u1 (fresh_otp (random env))
                  Hnd1 Hin1 Logic.eq_refl Hsel') as Es.
    change (Users.email u1) with (Users.email u) in Es. rewrite Es.
    cbn [users w1].
    rewrite (update_unique env' 1 _ (Some (Users.email u)) pre post u1 Hupd'
               Logic.eq_refl Hpre1 Hpost1).
    reflexivity.
  - intros old Hold. unfold verify_otp, select_single. rewrite Hsel'.
    rewrite (filter_unique _ _ u1 Hnd1 Hin1).
    + assert (Hp : by_email_and_otp (Some (Users.email u)) (Some old) u1 = false).
      { destruct (by_email_and_otp (Some (Users.email u)) (Some old) u1) eqn:E;
          [|reflexivity].
        apply by_email_and_otp_true in E. destruct E as [_ E].
        cbn in E. congruence. }
      rewrite Hp. reflexivity.
    + intros v Hv'. apply by_email_and_otp_true in Hv'. now destruct Hv'.
Qed.

Lemma resend_otp_then_verify_otp_witness :
  exists pre post u',
    users Scenario.office = pre ++ Sample.alice :: post /\
    verify_otp Sample.env
      (snd (resend_otp Scenario.second Scenario.office (Some "a@x.com")))
      (Some "a@x.com") (Some "999999")
    = (message "Email verified successfully.",
       {| users := pre ++ u' :: post;
          outbox := outbox (snd (resend_otp Scenario.second Scenario.office
                                   (Some "a@x.com"))) |}) /\
    Users.email_verified u' = true /\
    Users.otp_verified u' = true /\
    (forall old, old <> "999999" ->
       verify_otp Sample.env
         (snd (resend_otp Scenario.second Scenario.office (Some "a@x.com")))
         (Some "a@x.com") (Some old)
       = (error 400 "Invalid OTP",
          snd (resend_otp Scenario.second Scenario.office (Some "a@x.com")))).
Proof.
  apply (resend_otp_then_verify_otp Scenario.second Sample.env Scenario.office
           Sample.alice).
  - exact office_unique.
  - left; reflexivity.
  - discriminate.
  - reflexivity.
  - reflexivity.
  - reflexivity.
  - reflexivity.
  - reflexivity.
  - reflexivity.
Defined.

(** X20. What [/resend-otp] refuses, and how: an absent or empty email
    with 400 "Email is required"; an email that no account has with 404;
    an update that the repository does not serve with 500 "Failed to
    update OTP".  In the three cases nothing is stored and nothing
    sent. *)
Theorem resend_otp_refusals (env : Env) (w : World) :
  (forall e, Js.truthy e = false ->
     resend_otp env w e = (error 400 "Email is required", w)) /\
  (forall e, Js.truthy e = true ->
     (forall u, In u (users w) -> Users.email u <> Js.template e) ->
     resend_otp env w e = (error 404 "User with this email not found", w)) /\
  (forall u, Users.unique_emails (users w) -> In u (users w) ->
     Users.email u <> "" -> Users.otp_verified u = false ->
     unserved env 0 = false -> unserved env 1 = true ->
     resend_otp env w (Some (Users.email u)) = (error 500 "Failed to update OTP", w)).
Proof.
  split; [|split].
  - intros e He. unfold resend_otp. rewrite He. reflexivity.
  - intros e He Hno. unfold resend_otp, select_single. rewrite He. cbn [negb].
    destruct (unserved env 0); [reflexivity|].
    rewrite filter_nothing; [reflexivity|].
    intros v Hv. apply by_email_false. now apply Hno.
  - intros u Hnd Hin Hne Hv Hsel Hupd.
    unfold resend_otp. rewrite (truthy_nonempty _ Hne). cbn [negb].
    rewrite (select_by_email env _ u (Some (Users.email u)) Hnd Hin Logic.eq_refl Hsel).
    rewrite Hv. unfold update. rewrite Hupd. reflexivity.
Qed.

Lemma resend_otp_refusals_witness :
  resend_otp Sample.env Scenario.office None
    = (error 400 "Email is required", Scenario.office) /\
  resend_otp Sample.env Scenario.office (Some "")
    = (error 400 "Email is required", Scenario.office) /\
  resend_otp Sample.env Scenario.office (Some "z@x.com")
    = (error 404 "User with this email not found", Scenario.office) /\
  resend_otp Scenario.update_unserved Scenario.office (Some "a@x.com")
    = (error 500 "Failed to update OTP", Scenario.office).
Proof.
  split; [|split; [|split]].
  - apply (resend_otp_refusals Sample.env Scenario.office). reflexivity.
  - apply (resend_otp_refusals Sample.env Scenario.office). reflexivity.
  - apply (resend_otp_refusals Sample.env Scenario.office); [reflexivity|].
    intros u [<-|[<-|[]]]; discriminate.
  - apply (resend_otp_refusals Scenario.update_unserved Scenario.office)
      with (u := Sample.alice).
    + exact office_unique.
    + left; reflexivity.
    + discriminate.
    + reflexivity.
    + reflexivity.
    + reflexivity.
Defined.

(** ** The listing and the life of an account *)




(** X23. A request sends at most one mail, after those already sent,
    and it sends one only when it goes on to answer 200: no error reply
    comes with a mail. *)
Theorem at_most_one_mail (env : Env) (w : World) (req : Request) :
  outbox (after env w req) = outbox w \/
  exists m r,
    outbox (after env w req) = outbox w ++ [m] /\
    answer env w req = Some r /\
    succeeded r = true.
Proof.
  destruct req as [b|e o|e|e o|e|e|]; unfold answer, after.
  - unfold register. destruct (insert env 0 b _ (users w)) as [[err|] t];
      [now left|].
    unfold sendEmail. destruct (delivers env); [right|now left].
    eexists. eexists. cbn. repeat split.
  - unfold verify_otp.
    destruct (select_single env 0 _ (users w)) as [[user|] [err|]];
      try (now left).
    destruct (update env 1 _ _ (users w)). now left.
  - unfold login.
    destruct (select_single env 0 _ (users w)) as [[user|] [err|]];
      try (now left).
    destruct (negb (Users.email_verified user)); [now left|].
    destruct (negb (Users.approved_by_admin user)); [now left|].
    destruct (update env 1 _ _ (users w)).
    unfold sendEmail. destruct (delivers env); [right|now left].
    eexists. eexists. cbn. repeat split.
  - unfold verify_login.
    destruct (select_single env 0 _ (users w)) as [[user|] [err|]];
      try (now left).
    destruct (update env 1 _ _ (users w)).
    unfold sendEmail. destruct (delivers env); [right|now left].
    eexists. eexists. cbn. repeat split.
  - unfold logout.
    destruct (select_single env 0 _ (users w)) as [[user|] err];
      try (now left).
    destruct (update env 1 _ _ (users w)).
    unfold sendEmail. destruct (delivers env); [right|now left].
    eexists. eexists. cbn. repeat split.
  - unfold resend_otp.
    destruct (negb (Js.truthy e)); [now left|].
    destruct (select_single env 0 _ (users w)) as [[user|] [err|]];
      try (now left).
    destruct (Users.otp_verified user); [now left|].
    destruct (update env 1 _ _ (users w)) as [[e1|] t]; [now left|].
    unfold sendEmail. destruct (delivers env); [right|now left].
    eexists. eexists. cbn. repeat split.
  - unfold get_users. destruct (select_all env 0 (users w)) as [data [err|]];
      now left.
Qed.
